(** * The request processor of the agent (lib/src/request_processor.cc)

    A shallow embedding of [ResultsStorage], [nonBlockingActionTask] and
    [RequestProcessor]: the code is written in a small state-and-exception
    monad over a [World] that holds the file system, the completion flag and
    the chronological log of the calls made to the external collaborators
    (file utilities, connector, thread container).

    Logging statements (LOG_INFO, LOG_ERROR, ...) leave no event.  One of
    them names an argument that it is not given: it is modelled by the
    exception that formatting it raises. *)

From Stdlib Require Import ZArith Ascii.
From stdpp Require Import gmap strings list pretty.

Local Open Scope Z_scope.

(** ** Strings *)

(** The line feed that the source writes as an escape in its literals. *)
Definition LF : string := String (ascii_of_nat 10) EmptyString.

(** [std::string::empty]. *)
Definition empty (s : string) : bool :=
  match s with
  | EmptyString => true
  | String _ _ => false
  end.

(** ** Documents

    [CthunClient::DataContainer], the JSON document of the client library:
    an object is the ordered list of its members; [set] replaces the value of
    a member that exists and appends a member that does not. *)

#[warnings="-register-all"] Inductive json : Type :=
| JString (s : string)
| JBool (b : bool)
| JObject (members : list (string * json)).

Abbreviation DataContainer := (list (string * json)).

Fixpoint set (key : string) (value : json) (d : DataContainer) : DataContainer :=
  match d with
  | [] => [(key, value)]
  | (k, v) :: d' =>
      if decide (k = key) then (k, value) :: d' else (k, v) :: set key value d'
  end.

Fixpoint get (key : string) (d : DataContainer) : option json :=
  match d with
  | [] => None
  | (k, v) :: d' => if decide (k = key) then Some v else get key d'
  end.

(** [get<bool>]: the value of a boolean member, [false] when there is none. *)
Definition get_bool (key : string) (d : DataContainer) : bool :=
  match get key d with
  | Some (JBool b) => b
  | _ => false
  end.

(** ** Requests and outcomes *)

Module ParsedChunks.
Record t : Type := mk {
  envelope : DataContainer;
  data : DataContainer;
  debug : list DataContainer;
  num_invalid_debug : nat
}.
End ParsedChunks.

Inductive RequestType : Type := Blocking | NonBlocking.

Module ActionRequest.
Record t : Type := mk {
  type : RequestType;
  id : string;
  sender : string;
  transactionId : string;
  module : string;
  action : string;
  paramsTxt : string;
  parsedChunks : ParsedChunks.t
}.
End ActionRequest.

Module ActionOutcome.
Inductive Type_ : Type := Internal | External.

Record t : Type := mk {
  type : Type_;
  stderr : string;
  stdout : string;
  results : DataContainer
}.
End ActionOutcome.

(** ** Exceptions *)

Inductive exn : Type :=
| request_error (what : string)
| request_processing_error (what : string)
| file_error (what : string)
| connection_error (what : string)
| std_exception (what : string).

Definition what (e : exn) : string :=
  match e with
  | request_error w | request_processing_error w | file_error w
  | connection_error w | std_exception w => w
  end.

(** Modelled from the spec: the header that declares the error classes is not
    among the sources.  A request-processing error is a request error (it is
    caught by the handler of [processRequest], which catches [request_error]);
    file and connection errors are not. *)
Definition is_request_error (e : exn) : bool :=
  match e with
  | request_error _ | request_processing_error _ => true
  | _ => false
  end.

(** The fatal error of the constructor of the request processor.  Nothing in
    this file catches it: it ends the start of the agent. *)
Inductive fatal : Type :=
| fatal_error (what : string).

(** A module: its one operation returns an outcome or fails with a request
    error, of which [inr] carries the message. *)
Module Module_.
Record t : Type := mk {
  executeAction : ActionRequest.t -> ActionOutcome.t + string
}.
End Module_.

(** ** Job records: the state of a [ResultsStorage] object *)

Module ResultsStorage.
Record t : Type := mk {
  module : string;
  action : string;
  out_path : string;
  err_path : string;
  status_path : string;
  action_status : DataContainer
}.
End ResultsStorage.

(** The arguments that [processNonBlockingRequest] binds to
    [nonBlockingActionTask] when it starts the thread of a job. *)
Record Task : Type := mkTask {
  task_module_ptr : Module_.t;
  task_request : ActionRequest.t;
  task_job_id : string;
  task_results_storage : ResultsStorage.t
}.

(** ** The world *)

Inductive MsgType : Type :=
| ERROR_MSG_TYPE
| RPC_ERROR_MSG_TYPE
| BLOCKING_RESPONSE_TYPE
| NON_BLOCKING_RESPONSE_TYPE
| PROVISIONAL_RESPONSE_TYPE.

(** The arguments of one call of the connector's [send]. *)
Record Message : Type := mkMessage {
  send_endpoints : list string;
  send_type : MsgType;
  send_timeout : Z;
  send_data : DataContainer;
  send_debug : list DataContainer
}.

(** What the program does to its collaborators, in the order it does it.
    The boolean of an attempt tells whether it succeeded. *)
Inductive Event : Type :=
| EvCreateDirectory (path : string) (ok : bool)
| EvWriteToFile (text path : string) (ok : bool)
| EvSend (m : Message) (ok : bool)
| EvSpawn (task : Task)
| EvDone.

Record World : Type := mkWorld {
  dirs : gset string;
  files : gmap string string;
  done : bool;
  log : list Event
}.

Definition emit (e : Event) (w : World) : World :=
  mkWorld (dirs w) (files w) (done w) (log w ++ [e]).

(** The collaborators that the sources leave open.  Each answers as a function
    of the arguments of the call. *)
Record Env : Type := mkEnv {
  spool_dir_ : string;
  DEFAULT_MSG_TIMEOUT_SEC : Z;
  getUUID : string;
  toString : DataContainer -> string;
  to_string : Z -> string;
  createDirectory_ok : string -> bool;
  writeToFile_error : string -> string -> option string;
  send_error : Message -> option string;
  thread_error : option string;
  (* the reading of the steady clock when a task starts its duration timer,
     and the time by which the clock has advanced when the task asks for the
     elapsed time *)
  timer_start : Z;
  timer_advance : N;
  (* [ActionOutcome outcome {}] *)
  default_outcome : ActionOutcome.t
}.

(** ** The monad: state and exceptions *)

Inductive Result (A : Type) : Type :=
| Returned (a : A)
| Thrown (e : exn).
Arguments Returned {A} a.
Arguments Thrown {A} e.

Definition M (A : Type) : Type := World -> Result A * World.

#[global] Instance M_ret : MRet M := fun A (a : A) w => (Returned a, w).

#[global] Instance M_bind : MBind M := fun A B (k : A -> M B) (m : M A) w =>
  match m w with
  | (Returned a, w') => k a w'
  | (Thrown e, w') => (Thrown e, w')
  end.

Definition throw {A} (e : exn) : M A := fun w => (Thrown e, w).

(** [try { m } catch ...]: the handler returns [None] for an exception that no
    clause matches, which then propagates. *)
Definition try_catch {A} (m : M A) (handler : exn -> option (M A)) : M A :=
  fun w =>
    match m w with
    | (Returned a, w') => (Returned a, w')
    | (Thrown e, w') =>
        match handler e with
        | Some h => h w'
        | None => (Thrown e, w')
        end
    end.

Definition when (b : bool) (m : M unit) : M unit :=
  if b then m else mret tt.

(** ** The program *)

Section RequestProcessor.

Variable env : Env.

(** *** Collaborators *)

(** [boost::filesystem::exists] *)
Definition exists_ (path : string) : M bool := fun w =>
  (Returned (bool_decide (path ∈ dirs w) || bool_decide (is_Some (files w !! path))), w).

(** Modelled from the spec: the file utilities are not among the sources.
    [createDirectory] creates a directory and tells whether it could. *)
Definition createDirectory (path : string) : M bool := fun w =>
  if createDirectory_ok env path
  then (Returned true,
        emit (EvCreateDirectory path true)
             (mkWorld ({[path]} ∪ dirs w) (files w) (done w) (log w)))
  else (Returned false, emit (EvCreateDirectory path false) w).

(** Modelled from the spec: the file utilities are not among the sources.
    [writeToFile] replaces the whole content of a file, or throws a file
    error and leaves the file as it was. *)
Definition writeToFile (text path : string) : M unit := fun w =>
  match writeToFile_error env text path with
  | None =>
      (Returned tt,
       emit (EvWriteToFile text path true)
            (mkWorld (dirs w) (<[path := text]> (files w)) (done w) (log w)))
  | Some msg => (Thrown (file_error msg), emit (EvWriteToFile text path false) w)
  end.

(** [connector_ptr_->send]: fails with a connection error. *)
Definition send (endpoints : list string) (type : MsgType) (timeout : Z)
    (data : DataContainer) (debug : list DataContainer) : M unit := fun w =>
  let m := mkMessage endpoints type timeout data debug in
  match send_error env m with
  | None => (Returned tt, emit (EvSend m true) w)
  | Some msg => (Thrown (connection_error msg), emit (EvSend m false) w)
  end.

(** [module_ptr->executeAction] *)
Definition executeAction (module_ptr : Module_.t) (request : ActionRequest.t)
    : M ActionOutcome.t :=
  match Module_.executeAction module_ptr request with
  | inl outcome => mret outcome
  | inr msg => throw (request_error msg)
  end.

(** [std::make_shared<std::atomic<bool>>(false)] *)
Definition make_done : M unit := fun w =>
  (Returned tt, mkWorld (dirs w) (files w) false (log w)).

(** [*done = true] *)
Definition set_done : M unit := fun w =>
  (Returned tt, emit EvDone (mkWorld (dirs w) (files w) true (log w))).

(** [thread_container_.add(std::thread(&nonBlockingActionTask, ...), done)]:
    the thread starts, or a standard exception tells that it could not. *)
Definition thread_container_add (task : Task) : M unit := fun w =>
  match thread_error env with
  | None => (Returned tt, emit (EvSpawn task) w)
  | Some msg => (Thrown (std_exception msg), w)
  end.

(** *** Utility free function *)

Definition wrapDebug (parsed_chunks : ParsedChunks.t) : list DataContainer :=
  fold_left (fun debug debug_entry => debug ++ [debug_entry])
            (ParsedChunks.debug parsed_chunks) [].

(** *** Results Storage *)

Definition ResultsStorage_initialize (self : ResultsStorage.t)
    (request : ActionRequest.t) : M ResultsStorage.t :=
  let action_status := ResultsStorage.action_status self in
  let action_status := set "module" (JString (ResultsStorage.module self)) action_status in
  let action_status := set "action" (JString (ResultsStorage.action self)) action_status in
  let action_status := set "status" (JString "running") action_status in
  let action_status := set "duration" (JString "0 s") action_status in
  let action_status :=
    if negb (empty (ActionRequest.paramsTxt request))
    then set "input" (JString (ActionRequest.paramsTxt request)) action_status
    else set "input" (JString "none") action_status in
  writeToFile EmptyString (ResultsStorage.out_path self);;
  writeToFile EmptyString (ResultsStorage.err_path self);;
  writeToFile (toString env action_status +:+ LF) (ResultsStorage.status_path self);;
  mret (ResultsStorage.mk (ResultsStorage.module self) (ResultsStorage.action self)
          (ResultsStorage.out_path self) (ResultsStorage.err_path self)
          (ResultsStorage.status_path self) action_status).

(** The constructor. *)
Definition ResultsStorage_new (request : ActionRequest.t) (results_dir_ : string)
    : M ResultsStorage.t :=
  ResultsStorage_initialize
    (ResultsStorage.mk (ActionRequest.module request) (ActionRequest.action request)
       (results_dir_ +:+ "/stdout") (results_dir_ +:+ "/stderr")
       (results_dir_ +:+ "/status") [])
    request.

Definition ResultsStorage_write (self : ResultsStorage.t) (outcome : ActionOutcome.t)
    (exec_error duration : string) : M ResultsStorage.t :=
  let action_status := ResultsStorage.action_status self in
  let action_status := set "status" (JString "completed") action_status in
  let action_status := set "duration" (JString duration) action_status in
  let self := ResultsStorage.mk (ResultsStorage.module self) (ResultsStorage.action self)
                (ResultsStorage.out_path self) (ResultsStorage.err_path self)
                (ResultsStorage.status_path self) action_status in
  writeToFile (toString env action_status +:+ LF) (ResultsStorage.status_path self);;
  (if empty exec_error then
     match ActionOutcome.type outcome with
     | ActionOutcome.External =>
         writeToFile (ActionOutcome.stdout outcome +:+ LF) (ResultsStorage.out_path self);;
         when (negb (empty (ActionOutcome.stderr outcome)))
              (writeToFile (ActionOutcome.stderr outcome +:+ LF)
                           (ResultsStorage.err_path self))
     | ActionOutcome.Internal =>
         writeToFile (toString env (ActionOutcome.results outcome) +:+ LF)
                     (ResultsStorage.out_path self)
     end
   else
     let err_msg := "Failed to execute '" +:+ ResultsStorage.module self +:+ " "
                    +:+ ResultsStorage.action self +:+ "': " +:+ exec_error +:+ LF in
     writeToFile err_msg (ResultsStorage.err_path self));;
  mret self.

(** *** Replies

    The replies of the request processor come first: the task, which receives
    the processor by reference, sends two of them. *)

(** The clause [catch (CthunClient::connection_error& e)] of the four RPC
    replies: the failure is logged and the reply is dropped. *)
Definition catch_connection_error (e : exn) : option (M unit) :=
  match e with
  | connection_error _ => Some (mret tt)
  | _ => None
  end.




Definition replyRPCError (request : ActionRequest.t) (description : string) : M unit :=
  let rpc_error_data := [] in
  let rpc_error_data :=
    set "transaction_id" (JString (ActionRequest.transactionId request)) rpc_error_data in
  let rpc_error_data := set "id" (JString (ActionRequest.id request)) rpc_error_data in
  let rpc_error_data := set "description" (JString description) rpc_error_data in
  try_catch
    (send [ActionRequest.sender request] RPC_ERROR_MSG_TYPE
          (DEFAULT_MSG_TIMEOUT_SEC env) rpc_error_data [])
    catch_connection_error.

Definition replyBlockingResponse (request : ActionRequest.t) (results : DataContainer)
    : M unit :=
  let debug := wrapDebug (ActionRequest.parsedChunks request) in
  let response_data := [] in
  let response_data :=
    set "transaction_id" (JString (ActionRequest.transactionId request)) response_data in
  let response_data := set "results" (JObject results) response_data in
  try_catch
    (send [ActionRequest.sender request] BLOCKING_RESPONSE_TYPE
          (DEFAULT_MSG_TIMEOUT_SEC env) response_data debug)
    catch_connection_error.

Definition replyNonBlockingResponse (request : ActionRequest.t)
    (results : DataContainer) (job_id : string) : M unit :=
  let response_data := [] in
  let response_data :=
    set "transaction_id" (JString (ActionRequest.transactionId request)) response_data in
  let response_data := set "job_id" (JString job_id) response_data in
  let response_data := set "results" (JObject results) response_data in
  try_catch
    (send [ActionRequest.sender request] NON_BLOCKING_RESPONSE_TYPE
          (DEFAULT_MSG_TIMEOUT_SEC env) response_data [])
    catch_connection_error.

Definition replyProvisionalResponse (request : ActionRequest.t)
    (job_id error : string) : M unit :=
  let debug := wrapDebug (ActionRequest.parsedChunks request) in
  let provisional_data := [] in
  let provisional_data :=
    set "transaction_id" (JString (ActionRequest.transactionId request)) provisional_data in
  let provisional_data := set "success" (JBool (empty error)) provisional_data in
  let provisional_data := set "job_id" (JString job_id) provisional_data in
  let provisional_data :=
    if negb (empty error) then set "error" (JString error) provisional_data
    else provisional_data in
  try_catch
    (send [ActionRequest.sender request] PROVISIONAL_RESPONSE_TYPE
          (DEFAULT_MSG_TIMEOUT_SEC env) provisional_data debug)
    catch_connection_error.

(** *** Non-blocking action task *)

(** Modelled from the spec: the timer class is not among the sources.  The
    task starts a duration timer and later asks it for the elapsed time: the
    difference of two readings of the steady clock, which never goes back. *)
Definition elapsedSeconds : Z :=
  let start := timer_start env in
  let now := start + Z.of_N (timer_advance env) in
  now - start.

(** The [try] block of the task with its [catch (request_error& e)]: it
    leaves the locals [outcome] and [exec_error].  Only [executeAction]
    throws a request error, so [outcome] is still the default one in the
    handler. *)
Definition nonBlockingActionTask_try (module_ptr : Module_.t)
    (request : ActionRequest.t) (job_id : string) : M (ActionOutcome.t * string) :=
  try_catch
    (outcome ← executeAction module_ptr request;
     when (get_bool "notify_outcome"
             (ParsedChunks.data (ActionRequest.parsedChunks request)))
          (replyNonBlockingResponse request (ActionOutcome.results outcome) job_id);;
     mret (outcome, EmptyString))
    (fun e =>
       if is_request_error e
       then Some (let exec_error := what e in
                  replyRPCError request exec_error;;
                  mret (default_outcome env, exec_error))
       else None).

Definition nonBlockingActionTask (module_ptr : Module_.t) (request : ActionRequest.t)
    (job_id : string) (results_storage : ResultsStorage.t) : M unit :=
  locals ← nonBlockingActionTask_try module_ptr request job_id;
  let outcome := locals.1 in
  let exec_error := locals.2 in
  (* Store results on disk *)
  let duration := to_string env elapsedSeconds +:+ " s" in
  ResultsStorage_write results_storage outcome exec_error duration;;
  (* Flag end of processing *)
  set_done.

(** *** Request processor *)

Definition processBlockingRequest (module_ptr : Module_.t) (request : ActionRequest.t)
    : M unit :=
  (* Execute action; possible request errors will be propagated *)
  outcome ← executeAction module_ptr request;
  replyBlockingResponse request (ActionOutcome.results outcome).

Definition processNonBlockingRequest (module_ptr : Module_.t)
    (request : ActionRequest.t) : M unit :=
  let job_id := getUUID env in
  let results_dir := spool_dir_ env +:+ job_id in
  present ← exists_ results_dir;
  when (negb present)
       (created ← createDirectory results_dir;
        when (negb created)
             (throw (request_processing_error
                       ("failed to create directory '" +:+ results_dir +:+ "'"))));;
  (* Spawn action task *)
  err_msg ← try_catch
    (make_done;;
     results_storage ← ResultsStorage_new request results_dir;
     thread_container_add (mkTask module_ptr request job_id results_storage);;
     mret EmptyString)
    (fun e =>
       match e with
       | file_error w =>
           (* Failed to instantiate ResultsStorage *)
           Some (mret ("failed to initialize result files: " +:+ w))
       | _ => Some (mret ("failed to start action task: " +:+ what e))
       end);
  (* Send back provisional data *)
  replyProvisionalResponse request job_id err_msg.

Definition processRequest (module_ptr : Module_.t) (request : ActionRequest.t)
    : M unit :=
  try_catch
    (match ActionRequest.type request with
     | Blocking => processBlockingRequest module_ptr request
     | NonBlocking => processNonBlockingRequest module_ptr request
     end)
    (fun e =>
       if is_request_error e
       then Some (replyRPCError request (what e))  (* Process failure; send an *RPC error* *)
       else None).

(** *** The thread of a job

    [run_task] is the body of the thread that [thread_container_add] starts:
    the task function applied to the arguments bound at the spawn. *)
Definition run_task (task : Task) : M unit :=
  nonBlockingActionTask (task_module_ptr task) (task_request task)
                        (task_job_id task) (task_results_storage task).

(** *** The constructor of the request processor

    It makes sure that the spool directory exists; [None] is a processor
    constructed, [Some] the fatal error thrown. *)
Definition RequestProcessor_new : World -> option fatal * World := fun w =>
  match exists_ (spool_dir_ env) w with
  | (Returned false, w) =>
      match createDirectory (spool_dir_ env) w with
      | (Returned false, w) =>
          (Some (fatal_error ("failed to create the results directory '"
                              +:+ spool_dir_ env +:+ "'")), w)
      | (_, w) => (None, w)
      end
  | (_, w) => (None, w)
  end.

End RequestProcessor.

(** ** Observations *)

(** *** Kinds of events *)

Definition is_send (e : Event) : bool :=
  match e with EvSend _ _ => true | _ => false end.

Definition is_reply (type : MsgType) (e : Event) : bool :=
  match e with
  | EvSend m _ =>
      match send_type m, type with
      | ERROR_MSG_TYPE, ERROR_MSG_TYPE
      | RPC_ERROR_MSG_TYPE, RPC_ERROR_MSG_TYPE
      | BLOCKING_RESPONSE_TYPE, BLOCKING_RESPONSE_TYPE
      | NON_BLOCKING_RESPONSE_TYPE, NON_BLOCKING_RESPONSE_TYPE
      | PROVISIONAL_RESPONSE_TYPE, PROVISIONAL_RESPONSE_TYPE => true
      | _, _ => false
      end
  | _ => false
  end.

Definition is_write (e : Event) : bool :=
  match e with EvWriteToFile _ _ _ => true | _ => false end.

Definition is_write_to (path : string) (e : Event) : bool :=
  match e with
  | EvWriteToFile _ p _ => bool_decide (p = path)
  | _ => false
  end.

(** Directory creations and writes. *)
Definition is_fs (e : Event) : bool :=
  match e with
  | EvCreateDirectory _ _ | EvWriteToFile _ _ _ => true
  | _ => false
  end.

Definition is_spawn (e : Event) : bool :=
  match e with EvSpawn _ => true | _ => false end.

Definition is_done (e : Event) : bool :=
  match e with EvDone => true | _ => false end.

(** The position of the first event of a kind. *)
Fixpoint index_of (p : Event -> bool) (l : list Event) : option nat :=
  match l with
  | [] => None
  | e :: l' => if p e then Some O else S <$> index_of p l'
  end.

(** *** Threads

    The thread of a job runs concurrently with the thread that dispatched it:
    what an observer sees after the spawn is an interleaving of the steps that
    the dispatcher still takes with the steps of the task.  A schedule picks
    the thread of each step ([true]: the dispatcher, [false]: the task). *)

Fixpoint interleave {A} (sched : list bool) (l1 l2 : list A) : list A :=
  match sched with
  | [] => l1 ++ l2
  | true :: sched' =>
      match l1 with
      | x :: l1' => x :: interleave sched' l1' l2
      | [] => l2
      end
  | false :: sched' =>
      match l2 with
      | y :: l2' => y :: interleave sched' l1 l2'
      | [] => l1
      end
  end.

(** The interleaving when the task ends with an exception.  Nothing catches
    an exception that leaves the function of a thread: the process ends.  The
    task ends the process at its first step after its last event ([false] with
    no event left); what the dispatcher has not done by then is never done. *)
Fixpoint interleave_abort {A} (sched : list bool) (l1 l2 : list A) : list A :=
  match sched with
  | [] => l1 ++ l2
  | true :: sched' =>
      match l1 with
      | x :: l1' => x :: interleave_abort sched' l1' l2
      | [] => l2
      end
  | false :: sched' =>
      match l2 with
      | y :: l2' => y :: interleave_abort sched' l1 l2'
      | [] => []
      end
  end.

Fixpoint split_spawn (l : list Event) : option (list Event * Task * list Event) :=
  match l with
  | [] => None
  | EvSpawn task :: l' => Some ([], task, l')
  | e :: l' =>
      match split_spawn l' with
      | Some (pre, task, post) => Some (e :: pre, task, post)
      | None => None
      end
  end.

(** A world with the same file system and flag, and an empty log. *)
Definition fresh (w : World) : World := mkWorld (dirs w) (files w) (done w) [].

(** What is observed when a request is processed in world [w] under a
    schedule: the log of the dispatcher up to the spawn, then the interleaving
    of the rest of it with the log of the task, which is cut short when the
    task ends with an exception.  The task starts from the file system that
    the dispatcher leaves, which the dispatcher does not touch after the
    spawn. *)
Definition observe (env : Env) (sched : list bool) (module_ptr : Module_.t)
    (request : ActionRequest.t) (w : World) : list Event :=
  let w1 := (processRequest env module_ptr request (fresh w)).2 in
  match split_spawn (log w1) with
  | None => log w1
  | Some (pre, task, post) =>
      let run := run_task env task (fresh w1) in
      pre ++ EvSpawn task ::
        match run.1 with
        | Returned _ => interleave sched post (log run.2)
        | Thrown _ => interleave_abort sched post (log run.2)
        end
  end.

(** Whether the processing of a request ends the process: a task is spawned
    and an exception leaves it. *)
Definition aborted (env : Env) (module_ptr : Module_.t) (request : ActionRequest.t)
    (w : World) : bool :=
  let w1 := (processRequest env module_ptr request (fresh w)).2 in
  match split_spawn (log w1) with
  | None => false
  | Some (_, task, _) =>
      match (run_task env task (fresh w1)).1 with
      | Returned _ => false
      | Thrown _ => true
      end
  end.

(** ** Sample inputs

    An environment in which nothing fails, variations of it in which one
    collaborator fails, and the requests of three modules. *)

Module Sample.

(** A compact rendering of documents. *)
Fixpoint render_json (j : json) : string :=
  match j with
  | JString s => s
  | JBool b => if b then "true" else "false"
  | JObject members =>
      "{" +:+ (fix render_members (ms : list (string * json)) : string :=
                 match ms with
                 | [] => EmptyString
                 | (k, v) :: ms' =>
                     k +:+ ":" +:+ render_json v
                       +:+ (match ms' with [] => EmptyString | _ => "," end)
                       +:+ render_members ms'
                 end) members +:+ "}"
  end.

Definition render (d : DataContainer) : string := render_json (JObject d).

Definition no_outcome : ActionOutcome.t :=
  ActionOutcome.mk ActionOutcome.Internal EmptyString EmptyString [].

(** The rendering of a whole number of seconds, as [std::to_string] renders
    a double: with six decimals. *)
Definition seconds (z : Z) : string := pretty z +:+ ".000000".

Definition env : Env :=
  mkEnv "/spool/" 5 "job-1" render seconds (fun _ => true) (fun _ _ => None)
        (fun _ => None) None 100 2%N no_outcome.

(** The results directory cannot be created. *)
Definition env_no_directory : Env :=
  mkEnv "/spool/" 5 "job-1" render seconds (fun _ => false) (fun _ _ => None)
        (fun _ => None) None 100 2%N no_outcome.

(** The disk is full: files can be created and truncated, and the status file
    rewritten in place, but no output can be stored. *)
Definition env_disk_full : Env :=
  mkEnv "/spool/" 5 "job-1" render seconds (fun _ => true)
        (fun text path =>
           if negb (empty text) && bool_decide (path = "/spool/job-1/stdout")
           then Some "No space left on device" else None)
        (fun _ => None) None 100 2%N no_outcome.

(** The connection is lost: no message can be sent. *)
Definition env_offline : Env :=
  mkEnv "/spool/" 5 "job-1" render seconds (fun _ => true) (fun _ _ => None)
        (fun _ => Some "connection lost") None 100 2%N no_outcome.

Definition chunks (notify : bool) : ParsedChunks.t :=
  ParsedChunks.mk [("id", JString "req-1")] [("notify_outcome", JBool notify)] [] 0.

(** A non-blocking request for [facts get] that asks to be notified. *)
Definition request : ActionRequest.t :=
  ActionRequest.mk NonBlocking "req-1" "cth://controller" "tx-1" "facts" "get"
                   EmptyString (chunks true).

(** A non-blocking request for [foo bar]. *)
Definition foo_request : ActionRequest.t :=
  ActionRequest.mk NonBlocking "req-2" "cth://controller" "tx-2" "foo" "bar"
                   "{}" (chunks true).

(** A blocking request for [ping run]. *)
Definition blocking_request : ActionRequest.t :=
  ActionRequest.mk Blocking "req-3" "cth://controller" "tx-3" "ping" "run"
                   EmptyString (chunks false).

(** An in-process module that returns a document. *)
Definition facts : Module_.t :=
  Module_.mk (fun _ => inl (ActionOutcome.mk ActionOutcome.Internal EmptyString EmptyString
                              [("os", JString "linux")])).

(** An external module that prints X. *)
Definition shell : Module_.t :=
  Module_.mk (fun _ => inl (ActionOutcome.mk ActionOutcome.External EmptyString "X" [])).

(** A module that fails. *)
Definition failing : Module_.t :=
  Module_.mk (fun _ => inr "no such action").

(** The empty world. *)
Definition w0 : World := mkWorld ∅ ∅ false [].

(** What an event is, without its payload. *)
Inductive Tag : Type :=
| TagCreateDirectory (ok : bool)
| TagWrite (path text : string) (ok : bool)
| TagSend (type : MsgType) (ok : bool)
| TagSpawn
| TagDone.

Definition tag (e : Event) : Tag :=
  match e with
  | EvCreateDirectory _ ok => TagCreateDirectory ok
  | EvWriteToFile text path ok => TagWrite path text ok
  | EvSend m ok => TagSend (send_type m) ok
  | EvSpawn _ => TagSpawn
  | EvDone => TagDone
  end.

(** The status file cannot be written. *)
Definition env_no_status : Env :=
  mkEnv "/spool/" 5 "job-1" render seconds (fun _ => true)
        (fun _ path =>
           if bool_decide (path = "/spool/job-1/status")
           then Some "Permission denied" else None)
        (fun _ => None) None 100 2%N no_outcome.

(** No thread can be started. *)
Definition env_no_thread : Env :=
  mkEnv "/spool/" 5 "job-1" render seconds (fun _ => true) (fun _ _ => None)
        (fun _ => None) (Some "Resource temporarily unavailable") 100 2%N no_outcome.

(** A module that fails without a message. *)
Definition silent : Module_.t :=
  Module_.mk (fun _ => inr EmptyString).

(** A module that returns the default outcome. *)
Definition idle : Module_.t :=
  Module_.mk (fun _ => inl no_outcome).

(** A world in which the results directory of the sample job exists. *)
Definition w_with_directory : World := mkWorld {["/spool/job-1"]} ∅ false [].

End Sample.

(** ** What the runs are stated with

    Names for the messages, documents and worlds that the program builds. *)

Section Runs.

Variable env : Env.

(** Whether the connector delivers a message. *)
Definition delivered (m : Message) : bool :=
  match send_error env m with
  | None => true
  | Some _ => false
  end.

(** The world after a write that succeeded. *)
Definition wrote (text path : string) (w : World) : World :=
  emit (EvWriteToFile text path true)
       (mkWorld (dirs w) (<[path := text]> (files w)) (done w) (log w)).

(** The messages of the four replies. *)
Definition rpc_error_message (request : ActionRequest.t) (description : string) : Message :=
  mkMessage [ActionRequest.sender request] RPC_ERROR_MSG_TYPE (DEFAULT_MSG_TIMEOUT_SEC env)
    (set "description" (JString description)
       (set "id" (JString (ActionRequest.id request))
          (set "transaction_id" (JString (ActionRequest.transactionId request)) [])))
    [].

Definition blocking_message (request : ActionRequest.t) (results : DataContainer) : Message :=
  mkMessage [ActionRequest.sender request] BLOCKING_RESPONSE_TYPE (DEFAULT_MSG_TIMEOUT_SEC env)
    (set "results" (JObject results)
       (set "transaction_id" (JString (ActionRequest.transactionId request)) []))
    (wrapDebug (ActionRequest.parsedChunks request)).

Definition non_blocking_message (request : ActionRequest.t) (results : DataContainer)
    (job_id : string) : Message :=
  mkMessage [ActionRequest.sender request] NON_BLOCKING_RESPONSE_TYPE
    (DEFAULT_MSG_TIMEOUT_SEC env)
    (set "results" (JObject results)
       (set "job_id" (JString job_id)
          (set "transaction_id" (JString (ActionRequest.transactionId request)) [])))
    [].

Definition provisional_message (request : ActionRequest.t) (job_id error : string) : Message :=
  mkMessage [ActionRequest.sender request] PROVISIONAL_RESPONSE_TYPE
    (DEFAULT_MSG_TIMEOUT_SEC env)
    (let provisional_data :=
       set "job_id" (JString job_id)
         (set "success" (JBool (empty error))
            (set "transaction_id" (JString (ActionRequest.transactionId request)) [])) in
     if negb (empty error) then set "error" (JString error) provisional_data
     else provisional_data)
    (wrapDebug (ActionRequest.parsedChunks request)).

(** The status document that [initialize] builds for a request. *)
Definition initial_status (request : ActionRequest.t) : DataContainer :=
  set "input"
      (JString (if negb (empty (ActionRequest.paramsTxt request))
                then ActionRequest.paramsTxt request else "none"))
    (set "duration" (JString "0 s")
       (set "status" (JString "running")
          (set "action" (JString (ActionRequest.action request))
             (set "module" (JString (ActionRequest.module request)) [])))).

(** The status document that [write] leaves. *)
Definition final_status (self : ResultsStorage.t) (duration : string) : DataContainer :=
  set "duration" (JString duration)
    (set "status" (JString "completed") (ResultsStorage.action_status self)).

(** The job record of a request in a results directory. *)
Definition job_record (request : ActionRequest.t) (results_dir_ : string)
    : ResultsStorage.t :=
  ResultsStorage.mk (ActionRequest.module request) (ActionRequest.action request)
    (results_dir_ +:+ "/stdout") (results_dir_ +:+ "/stderr")
    (results_dir_ +:+ "/status") (initial_status request).

(** The world that [write] leaves when no write fails. *)
Definition finalized (self : ResultsStorage.t) (outcome : ActionOutcome.t)
    (exec_error duration : string) (w : World) : World :=
  let w := wrote (toString env (final_status self duration) +:+ LF)
                 (ResultsStorage.status_path self) w in
  if empty exec_error then
    match ActionOutcome.type outcome with
    | ActionOutcome.External =>
        let w := wrote (ActionOutcome.stdout outcome +:+ LF)
                       (ResultsStorage.out_path self) w in
        if negb (empty (ActionOutcome.stderr outcome))
        then wrote (ActionOutcome.stderr outcome +:+ LF) (ResultsStorage.err_path self) w
        else w
    | ActionOutcome.Internal =>
        wrote (toString env (ActionOutcome.results outcome) +:+ LF)
              (ResultsStorage.out_path self) w
    end
  else
    wrote ("Failed to execute '" +:+ ResultsStorage.module self +:+ " "
           +:+ ResultsStorage.action self +:+ "': " +:+ exec_error +:+ LF)
          (ResultsStorage.err_path self) w.

(** The "notify on completion" flag of a request. *)
Definition notify_outcome (request : ActionRequest.t) : bool :=
  get_bool "notify_outcome" (ParsedChunks.data (ActionRequest.parsedChunks request)).

(** The locals [outcome] and [exec_error] after the [try] block. *)
Definition task_locals (module_ptr : Module_.t) (request : ActionRequest.t)
    : ActionOutcome.t * string :=
  match Module_.executeAction module_ptr request with
  | inl outcome => (outcome, EmptyString)
  | inr msg => (default_outcome env, msg)
  end.

(** The reply that the [try] block attempts, if any. *)
Definition task_reply (module_ptr : Module_.t) (request : ActionRequest.t)
    (job_id : string) : list Event :=
  match Module_.executeAction module_ptr request with
  | inl outcome =>
      if notify_outcome request
      then let m := non_blocking_message request (ActionOutcome.results outcome) job_id in
           [EvSend m (delivered m)]
      else []
  | inr msg =>
      let m := rpc_error_message request msg in [EvSend m (delivered m)]
  end.

(** The world after the [try] block: only the log has grown. *)
Definition replied (module_ptr : Module_.t) (request : ActionRequest.t)
    (job_id : string) (w : World) : World :=
  mkWorld (dirs w) (files w) (done w) (log w ++ task_reply module_ptr request job_id).

(** The duration that the task passes to [write]. *)
Definition task_duration : string := to_string env (elapsedSeconds env) +:+ " s".

(** The results directory of the job of a non-blocking request. *)
Definition results_dir : string := spool_dir_ env +:+ getUUID env.

(** Whether the results directory exists before the request is processed. *)
Definition present (w : World) : bool :=
  bool_decide (results_dir ∈ dirs w) || bool_decide (is_Some (files w !! results_dir)).

(** The world once the results directory is there and the flag is made. *)
Definition with_directory (w : World) : World :=
  if present w
  then mkWorld (dirs w) (files w) false (log w)
  else mkWorld ({[results_dir]} ∪ dirs w) (files w) false
               (log w ++ [EvCreateDirectory results_dir true]).

(** The error text that the two [catch] clauses of the spawn leave. *)
Definition spawn_err_msg (e : exn) : string :=
  match e with
  | file_error w => "failed to initialize result files: " +:+ w
  | _ => "failed to start action task: " +:+ what e
  end.

(** ** Properties *)

(** *** Documents *)

Lemma get_set_eq key value (d : DataContainer) :
  get key (set key value d) = Some value.
Proof.
  induction d as [|[k v] d IH]; simpl.
  - by rewrite decide_True.
  - destruct (decide (k = key)) as [->|Hne]; simpl.
    + by rewrite decide_True.
    + by rewrite decide_False.
Qed.

Lemma get_set_ne key key' value (d : DataContainer) :
  key ≠ key' -> get key' (set key value d) = get key' d.
Proof.
  intros Hne. induction d as [|[k v] d IH]; simpl.
  - by rewrite decide_False.
  - destruct (decide (k = key)) as [->|Hk]; simpl.
    + by rewrite !decide_False.
    + destruct (decide (k = key')); [done|apply IH].
Qed.

Lemma set_keys_present key value value' (d : DataContainer) :
  get key d = Some value' -> (set key value d).*1 = d.*1.
Proof.
  induction d as [|[k v] d IH]; simpl; [done|].
  destruct (decide (k = key)) as [->|Hk]; simpl; [done|].
  intros H. f_equal. by apply IH.
Qed.

(** *** Strings *)

Lemma append_inj_l (s t1 t2 : string) : s +:+ t1 = s +:+ t2 -> t1 = t2.
Proof. induction s as [|c s IH]; simpl; [done|]. intros [= H]. by apply IH. Qed.

(** *** Interleavings *)

Lemma interleave_filter_length {A} (p : A -> bool) sched (l1 l2 : list A) :
  length (List.filter p (interleave sched l1 l2))
  = (length (List.filter p l1) + length (List.filter p l2))%nat.
Proof.
  revert l1 l2. induction sched as [|[] sched IH]; intros l1 l2; simpl.
  - by rewrite List.filter_app, length_app.
  - destruct l1 as [|x l1]; simpl; [done|].
    destruct (p x); simpl; by rewrite IH.
  - destruct l2 as [|y l2]; simpl; [lia|].
    destruct (p y); simpl; rewrite IH; simpl; lia.
Qed.

Lemma interleave_In {A} sched (l1 l2 : list A) x :
  In x (interleave sched l1 l2) <-> In x l1 \/ In x l2.
Proof.
  revert l1 l2. induction sched as [|[] sched IH]; intros l1 l2; simpl.
  - apply in_app_iff.
  - destruct l1 as [|y l1]; simpl; [tauto|]. rewrite IH. tauto.
  - destruct l2 as [|y l2]; simpl; [tauto|]. rewrite IH. tauto.
Qed.

Lemma interleave_abort_filter_length {A} (p : A -> bool) sched (l1 l2 : list A) :
  (length (List.filter p (interleave_abort sched l1 l2))
   <= length (List.filter p l1) + length (List.filter p l2))%nat.
Proof.
  revert l1 l2. induction sched as [|[] sched IH]; intros l1 l2; simpl.
  - by rewrite List.filter_app, length_app.
  - destruct l1 as [|x l1]; simpl; [done|].
    specialize (IH l1 l2). destruct (p x); simpl; lia.
  - destruct l2 as [|y l2]; simpl; [lia|].
    specialize (IH l1 l2). destruct (p y); simpl; lia.
Qed.

Lemma interleave_abort_In {A} sched (l1 l2 : list A) x :
  In x (interleave_abort sched l1 l2) -> In x l1 \/ In x l2.
Proof.
  revert l1 l2. induction sched as [|[] sched IH]; intros l1 l2; simpl.
  - apply in_app_iff.
  - destruct l1 as [|y l1]; simpl; [tauto|].
    intros [H|H]; [tauto|]. apply IH in H. tauto.
  - destruct l2 as [|y l2]; simpl; [tauto|].
    intros [H|H]; [tauto|]. apply IH in H. tauto.
Qed.

(** The events of the task are all there, whether the dispatcher is cut
    short or not. *)
Lemma interleave_abort_task {A} sched (l1 l2 : list A) x :
  In x l2 -> In x (interleave_abort sched l1 l2).
Proof.
  revert l1 l2. induction sched as [|[] sched IH]; intros l1 l2; simpl.
  - intros H. apply in_app_iff. by right.
  - destruct l1 as [|y l1]; simpl; [done|]. intros H. right. by apply IH.
  - destruct l2 as [|y l2]; simpl; [done|].
    intros [H|H]; [by left|]. right. by apply IH.
Qed.

(** What the two interleavings have in common. *)
Lemma interleavings {A} sched (l1 l2 rest : list A) :
  rest = interleave sched l1 l2 \/ rest = interleave_abort sched l1 l2 ->
  (forall P : A -> Prop, Forall P l1 -> Forall P l2 -> Forall P rest)
  ∧ (forall p : A -> bool,
       (length (List.filter p rest)
        <= length (List.filter p l1) + length (List.filter p l2))%nat)
  ∧ (forall x, In x rest -> In x l1 \/ In x l2)
  ∧ (forall x, In x l2 -> In x rest).
Proof.
  intros Hrest.
  assert (Hin : forall x, In x rest -> In x l1 \/ In x l2).
  { intros x. destruct Hrest as [-> | ->];
      [apply interleave_In|apply interleave_abort_In]. }
  split_and!.
  - intros P H1 H2. apply Forall_forall. intros x Hx.
    apply list_elem_of_In, Hin in Hx as [Hx|Hx].
    + by apply (proj1 (Forall_forall P l1) H1), list_elem_of_In.
    + by apply (proj1 (Forall_forall P l2) H2), list_elem_of_In.
  - intros p. destruct Hrest as [-> | ->].
    + by rewrite interleave_filter_length.
    + apply interleave_abort_filter_length.
  - exact Hin.
  - intros x Hx. destruct Hrest as [-> | ->].
    + apply interleave_In. by right.
    + by apply interleave_abort_task.
Qed.

Lemma split_spawn_app pre task post :
  List.filter is_spawn pre = [] ->
  split_spawn (pre ++ EvSpawn task :: post) = Some (pre, task, post).
Proof.
  induction pre as [|e pre IH]; simpl; [done|].
  destruct e; simpl; try done; intros H; by rewrite (IH H).
Qed.

Lemma split_spawn_none l :
  List.filter is_spawn l = [] -> split_spawn l = None.
Proof.
  induction l as [|e l IH]; simpl; [done|].
  destruct e; simpl; try done; intros H; by rewrite (IH H).
Qed.

(** *** Running the collaborators and the replies *)

(** A reply is one attempt to send, whose failure is absorbed. *)
Lemma try_send_run endpoints type timeout data debug w :
  try_catch (send env endpoints type timeout data debug) catch_connection_error w
  = (Returned tt,
     emit (EvSend (mkMessage endpoints type timeout data debug)
                  (delivered (mkMessage endpoints type timeout data debug))) w).
Proof. unfold try_catch, send, delivered. by destruct (send_error env _). Qed.

Lemma replyRPCError_run request description w :
  replyRPCError env request description w
  = (Returned tt,
     emit (EvSend (rpc_error_message request description)
                  (delivered (rpc_error_message request description))) w).
Proof. apply try_send_run. Qed.

Lemma replyBlockingResponse_run request results w :
  replyBlockingResponse env request results w
  = (Returned tt,
     emit (EvSend (blocking_message request results)
                  (delivered (blocking_message request results))) w).
Proof. apply try_send_run. Qed.

Lemma replyNonBlockingResponse_run request results job_id w :
  replyNonBlockingResponse env request results job_id w
  = (Returned tt,
     emit (EvSend (non_blocking_message request results job_id)
                  (delivered (non_blocking_message request results job_id))) w).
Proof. apply try_send_run. Qed.

Lemma replyProvisionalResponse_run request job_id error w :
  replyProvisionalResponse env request job_id error w
  = (Returned tt,
     emit (EvSend (provisional_message request job_id error)
                  (delivered (provisional_message request job_id error))) w).
Proof. apply try_send_run. Qed.


(** *** Running the results storage *)

Lemma job_record_paths request results_dir_ :
  let rs := job_record request results_dir_ in
  ResultsStorage.out_path rs ≠ ResultsStorage.err_path rs
  ∧ ResultsStorage.out_path rs ≠ ResultsStorage.status_path rs
  ∧ ResultsStorage.err_path rs ≠ ResultsStorage.status_path rs.
Proof. repeat split; intros H; by apply append_inj_l in H. Qed.

(** The constructor returns the job record after three writes, or throws the
    file error of the write that failed. *)
Lemma ResultsStorage_new_returned request results_dir_ w rs w' :
  ResultsStorage_new env request results_dir_ w = (Returned rs, w') ->
  rs = job_record request results_dir_
  ∧ w' = wrote (toString env (initial_status request) +:+ LF) (results_dir_ +:+ "/status")
           (wrote EmptyString (results_dir_ +:+ "/stderr")
              (wrote EmptyString (results_dir_ +:+ "/stdout") w)).
Proof.
  unfold ResultsStorage_new, ResultsStorage_initialize, mbind, M_bind, mret, M_ret,
    writeToFile, job_record, initial_status.
  cbn [ResultsStorage.status_path ResultsStorage.out_path ResultsStorage.err_path
       ResultsStorage.module ResultsStorage.action ResultsStorage.action_status].
  intros H. repeat case_match; simplify_eq; done.
Qed.

Lemma ResultsStorage_new_thrown request results_dir_ w e w' :
  ResultsStorage_new env request results_dir_ w = (Thrown e, w') ->
  (exists msg, e = file_error msg)
  ∧ (exists l, log w' = log w ++ l ∧ forallb is_write l = true)
  ∧ dirs w' = dirs w ∧ done w' = done w.
Proof.
  unfold ResultsStorage_new, ResultsStorage_initialize, mbind, M_bind, mret, M_ret,
    writeToFile.
  cbn [ResultsStorage.status_path ResultsStorage.out_path ResultsStorage.err_path
       ResultsStorage.module ResultsStorage.action ResultsStorage.action_status].
  intros H. repeat case_match; simplify_eq; cbn [log emit dirs done];
    (split; [by eexists|]); (split; [|done]);
    rewrite <- ?(assoc_L (++)); by eexists.
Qed.


(** The first thing the constructor does is to empty the stdout file. *)
Lemma ResultsStorage_new_first request results_dir_ w :
  exists ok tl,
    log (ResultsStorage_new env request results_dir_ w).2
    = log w ++ EvWriteToFile EmptyString (results_dir_ +:+ "/stdout") ok :: tl
    ∧ (ok = true <-> writeToFile_error env EmptyString (results_dir_ +:+ "/stdout") = None).
Proof.
  unfold ResultsStorage_new, ResultsStorage_initialize, mbind, M_bind, mret, M_ret,
    writeToFile.
  cbn [ResultsStorage.status_path ResultsStorage.out_path ResultsStorage.err_path
       ResultsStorage.module ResultsStorage.action ResultsStorage.action_status].
  repeat case_match; simplify_eq/=; rewrite <- ?(assoc_L (++)); simpl;
    eexists _, _; (split; [done|]); split; congruence.
Qed.

Ltac run_write :=
  unfold ResultsStorage_write, finalized, final_status, when, mbind, M_bind, mret, M_ret,
    writeToFile;
  cbn [ResultsStorage.status_path ResultsStorage.out_path ResultsStorage.err_path
       ResultsStorage.module ResultsStorage.action ResultsStorage.action_status].

Lemma ResultsStorage_write_returned self outcome exec_error duration w self' w' :
  ResultsStorage_write env self outcome exec_error duration w = (Returned self', w') ->
  self' = ResultsStorage.mk (ResultsStorage.module self) (ResultsStorage.action self)
            (ResultsStorage.out_path self) (ResultsStorage.err_path self)
            (ResultsStorage.status_path self) (final_status self duration)
  ∧ w' = finalized self outcome exec_error duration w.
Proof.
  run_write. intros H. repeat case_match; simplify_eq/=; done.
Qed.

(** Whatever happens, [write] first attempts to write the final status
    document, and then writes to the two other files only. *)
Lemma ResultsStorage_write_log self outcome exec_error duration w :
  exists ok l,
    log (ResultsStorage_write env self outcome exec_error duration w).2
    = log w ++ EvWriteToFile (toString env (final_status self duration) +:+ LF)
                             (ResultsStorage.status_path self) ok :: l
    ∧ forallb (fun e => is_write_to (ResultsStorage.out_path self) e
                        || is_write_to (ResultsStorage.err_path self) e) l = true.
Proof.
  run_write. repeat case_match; simplify_eq/=;
    rewrite <- ?(assoc_L (++)); simpl; eexists _, _; (split; [done|]);
    simpl;
    rewrite ?(bool_decide_eq_true_2 (ResultsStorage.out_path self = _) eq_refl),
            ?(bool_decide_eq_true_2 (ResultsStorage.err_path self = _) eq_refl);
    by rewrite ?orb_true_r.
Qed.

(** The first write of [write] is the one of the final status document; it
    succeeds when the status file can be written, and it has succeeded when
    [write] returns. *)
Lemma ResultsStorage_write_shape self outcome exec_error duration w :
  exists ok l,
    log (ResultsStorage_write env self outcome exec_error duration w).2
    = log w ++ EvWriteToFile (toString env (final_status self duration) +:+ LF)
                             (ResultsStorage.status_path self) ok :: l
    ∧ forallb (fun e => is_write_to (ResultsStorage.out_path self) e
                        || is_write_to (ResultsStorage.err_path self) e) l = true
    ∧ (ok = true
       <-> writeToFile_error env (toString env (final_status self duration) +:+ LF)
             (ResultsStorage.status_path self) = None)
    ∧ (forall self',
         (ResultsStorage_write env self outcome exec_error duration w).1 = Returned self' ->
         ok = true).
Proof.
  run_write. repeat case_match; simplify_eq/=;
    rewrite <- ?(assoc_L (++)); simpl; eexists _, _; (split; [done|]);
    (split; [simpl;
             rewrite ?(bool_decide_eq_true_2 (ResultsStorage.out_path self = _) eq_refl),
                     ?(bool_decide_eq_true_2 (ResultsStorage.err_path self = _) eq_refl);
             by rewrite ?orb_true_r|]);
    (split; [split; congruence|]); congruence.
Qed.

Lemma ResultsStorage_write_thrown self outcome exec_error duration w e w' :
  ResultsStorage_write env self outcome exec_error duration w = (Thrown e, w') ->
  (exists msg, e = file_error msg) ∧ done w' = done w.
Proof.
  run_write. intros H. repeat case_match; simplify_eq/=; split; by eauto.
Qed.

(** [write] returns when the three files of the record can be written. *)
Lemma ResultsStorage_write_returns self outcome exec_error duration w :
  (forall text path,
      path ∈ [ResultsStorage.status_path self; ResultsStorage.out_path self;
              ResultsStorage.err_path self] ->
      writeToFile_error env text path = None) ->
  exists self',
    ResultsStorage_write env self outcome exec_error duration w
    = (Returned self', finalized self outcome exec_error duration w).
Proof.
  intros Hok.
  assert (Hs := fun text => Hok text (ResultsStorage.status_path self) ltac:(set_solver)).
  assert (Ho := fun text => Hok text (ResultsStorage.out_path self) ltac:(set_solver)).
  assert (He := fun text => Hok text (ResultsStorage.err_path self) ltac:(set_solver)).
  run_write. rewrite Hs.
  destruct (empty exec_error); [destruct (ActionOutcome.type outcome)|];
    rewrite ?Ho, ?He; cbn [negb]; try by eexists.
  destruct (empty (ActionOutcome.stderr outcome)); cbn [negb]; rewrite ?He; by eexists.
Qed.


(** *** Running the task *)

Lemma filter_forallb_nil (p q : Event -> bool) l :
  (forall e, q e = true -> p e = false) ->
  forallb q l = true -> List.filter p l = [].
Proof.
  intros Hpq. induction l as [|e l IH]; simpl; [done|].
  intros [He Hl]%andb_prop. by rewrite (Hpq e He), IH.
Qed.

Lemma nonBlockingActionTask_try_run module_ptr request job_id w :
  nonBlockingActionTask_try env module_ptr request job_id w
  = (Returned (task_locals module_ptr request), replied module_ptr request job_id w).
Proof.
  unfold nonBlockingActionTask_try, try_catch, executeAction, task_locals, replied,
    task_reply, mbind, M_bind, mret, M_ret, throw, notify_outcome.
  destruct (Module_.executeAction module_ptr request) as [outcome|msg]; simpl.
  - destruct (get_bool _ _); simpl.
    + by rewrite replyNonBlockingResponse_run.
    + destruct w; by rewrite app_nil_r.
  - by rewrite replyRPCError_run.
Qed.

(** The task is its [try] block, then [write], then the flag. *)
Lemma nonBlockingActionTask_run module_ptr request job_id results_storage w :
  nonBlockingActionTask env module_ptr request job_id results_storage w
  = match ResultsStorage_write env results_storage
            (task_locals module_ptr request).1 (task_locals module_ptr request).2
            task_duration (replied module_ptr request job_id w) with
    | (Returned _, w') =>
        (Returned tt, emit EvDone (mkWorld (dirs w') (files w') true (log w')))
    | (Thrown e, w') => (Thrown e, w')
    end.
Proof.
  unfold nonBlockingActionTask. unfold mbind at 1, M_bind at 1.
  rewrite nonBlockingActionTask_try_run.
  unfold mbind, M_bind, set_done, task_duration.
  by destruct (ResultsStorage_write _ _ _ _ _ _) as [[]].
Qed.

(** The log of the task: the reply of the [try] block, the writes of the
    storage, and the flag when [write] returned. *)
Lemma nonBlockingActionTask_log module_ptr request job_id results_storage w :
  exists ok writes fin,
    log (nonBlockingActionTask env module_ptr request job_id results_storage w).2
    = log w ++ task_reply module_ptr request job_id
        ++ EvWriteToFile (toString env (final_status results_storage task_duration) +:+ LF)
                         (ResultsStorage.status_path results_storage) ok
        :: writes ++ fin
    ∧ forallb (fun e => is_write_to (ResultsStorage.out_path results_storage) e
                        || is_write_to (ResultsStorage.err_path results_storage) e)
              writes = true
    ∧ (fin = [] \/ fin = [EvDone]).
Proof.
  rewrite nonBlockingActionTask_run.
  destruct (ResultsStorage_write_log results_storage
              (task_locals module_ptr request).1 (task_locals module_ptr request).2
              task_duration (replied module_ptr request job_id w))
    as (ok & l & Hlog & Hl).
  destruct (ResultsStorage_write _ _ _ _ _ _) as [[self'|e] w'];
    simpl in Hlog; cbn [snd log emit]; rewrite Hlog; cbn [replied log].
  - exists ok, l, [EvDone]. rewrite <- !(assoc_L (++)). simpl. eauto.
  - exists ok, l, []. rewrite <- !(assoc_L (++)), app_nil_r. simpl. eauto.
Qed.

(** How the task ends: it returns after the flag, once every write of the
    storage succeeded, or the file error of a write leaves it, and the flag is
    not reached. *)
Lemma nonBlockingActionTask_outcome module_ptr request job_id results_storage w :
  let run := nonBlockingActionTask env module_ptr request job_id results_storage w in
  let text := toString env (final_status results_storage task_duration) +:+ LF in
  exists ok writes fin,
    log run.2
    = log w ++ task_reply module_ptr request job_id
        ++ EvWriteToFile text (ResultsStorage.status_path results_storage) ok
        :: writes ++ fin
    ∧ forallb (fun e => is_write_to (ResultsStorage.out_path results_storage) e
                        || is_write_to (ResultsStorage.err_path results_storage) e)
              writes = true
    ∧ (ok = true
       <-> writeToFile_error env text (ResultsStorage.status_path results_storage) = None)
    ∧ (run.1 = Returned tt ∧ ok = true ∧ fin = [EvDone]
       \/ (exists e, run.1 = Thrown e) ∧ fin = []).
Proof.
  intros run text. subst run text. rewrite nonBlockingActionTask_run.
  destruct (ResultsStorage_write_shape results_storage
              (task_locals module_ptr request).1 (task_locals module_ptr request).2
              task_duration (replied module_ptr request job_id w))
    as (ok & l & Hlog & Hl & Hok & Hret).
  destruct (ResultsStorage_write _ _ _ _ _ _) as [[self'|e] w'];
    simpl in Hlog; cbn [fst snd log emit]; rewrite Hlog; cbn [replied log].
  - exists ok, l, [EvDone]. rewrite <- !(assoc_L (++)). simpl.
    split_and!; [done|done|done|]. left. split_and!; [done| |done].
    by apply (Hret self').
  - exists ok, l, []. rewrite <- !(assoc_L (++)), app_nil_r. simpl.
    split_and!; [done|done|done|]. right. split; [by exists e|done].
Qed.

Lemma task_reply_sends module_ptr request job_id :
  List.filter is_send (task_reply module_ptr request job_id)
  = task_reply module_ptr request job_id.
Proof.
  unfold task_reply. destruct (Module_.executeAction _ _); [|done].
  by destruct (notify_outcome request).
Qed.

Lemma task_reply_not_provisional module_ptr request job_id :
  List.filter (is_reply PROVISIONAL_RESPONSE_TYPE) (task_reply module_ptr request job_id) = [].
Proof.
  unfold task_reply. destruct (Module_.executeAction _ _); [|done].
  by destruct (notify_outcome request).
Qed.


(** *** Running the dispatcher *)

Lemma processNonBlockingRequest_no_directory module_ptr request w :
  present w = false ->
  createDirectory_ok env results_dir = false ->
  processNonBlockingRequest env module_ptr request w
  = (Thrown (request_processing_error
               ("failed to create directory '" +:+ results_dir +:+ "'")),
     emit (EvCreateDirectory results_dir false) w).
Proof.
  intros Hp Hc.
  unfold processNonBlockingRequest, exists_, createDirectory, when, throw,
    mbind, M_bind, mret, M_ret.
  fold results_dir. fold (present w). by rewrite Hp, Hc.
Qed.

Lemma processNonBlockingRequest_run module_ptr request w :
  present w = true \/ createDirectory_ok env results_dir = true ->
  processNonBlockingRequest env module_ptr request w
  = match ResultsStorage_new env request results_dir (with_directory w) with
    | (Returned results_storage, w') =>
        match thread_error env with
        | None =>
            replyProvisionalResponse env request (getUUID env) EmptyString
              (emit (EvSpawn (mkTask module_ptr request (getUUID env) results_storage)) w')
        | Some msg =>
            replyProvisionalResponse env request (getUUID env)
              ("failed to start action task: " +:+ msg) w'
        end
    | (Thrown e, w') =>
        replyProvisionalResponse env request (getUUID env) (spawn_err_msg e) w'
    end.
Proof.
  intros Hdir.
  unfold processNonBlockingRequest, exists_, createDirectory, when, throw, try_catch,
    make_done, thread_container_add, with_directory, mbind, M_bind, mret, M_ret.
  fold results_dir. fold (present w).
  destruct (present w) eqn:Hp; simpl.
  - destruct (ResultsStorage_new _ _ _ _) as [[rs|e] w']; simpl.
    + by destruct (thread_error env).
    + by destruct e.
  - destruct Hdir as [|Hc]; [done|]. rewrite Hc. simpl.
    destruct (ResultsStorage_new _ _ _ _) as [[rs|e] w']; simpl.
    + by destruct (thread_error env).
    + by destruct e.
Qed.

Lemma processBlockingRequest_run module_ptr request w :
  processBlockingRequest env module_ptr request w
  = match Module_.executeAction module_ptr request with
    | inl outcome =>
        let m := blocking_message request (ActionOutcome.results outcome) in
        (Returned tt, emit (EvSend m (delivered m)) w)
    | inr msg => (Thrown (request_error msg), w)
    end.
Proof.
  unfold processBlockingRequest, executeAction, throw, mbind, M_bind, mret, M_ret.
  destruct (Module_.executeAction module_ptr request); simpl; [|done].
  by rewrite replyBlockingResponse_run.
Qed.

(** *** The job record *)

Lemma files_wrote_eq text path w : files (wrote text path w) !! path = Some text.
Proof. unfold wrote. cbn [files emit]. apply lookup_insert_eq. Qed.

Lemma files_wrote_ne text path path' w :
  path ≠ path' -> files (wrote text path w) !! path' = files w !! path'.
Proof. intros H. unfold wrote. cbn [files emit]. by apply lookup_insert_ne. Qed.

Ltac get_set := repeat first [rewrite get_set_eq | rewrite get_set_ne by done].




(** C9. Finalizing a job record changes the status and duration members of
    the status document that initialization built, in place: every other
    member (module, action and input among them) keeps its value and the
    members keep their order, and the document so changed is what is
    written to the status file. *)
Theorem C9_finalize_preserves request results_dir_ w0 rs w1
    outcome exec_error duration w rs' w' :
  ResultsStorage_new env request results_dir_ w0 = (Returned rs, w1) ->
  ResultsStorage_write env rs outcome exec_error duration w = (Returned rs', w') ->
  ResultsStorage.action_status rs'
  = set "duration" (JString duration)
      (set "status" (JString "completed") (ResultsStorage.action_status rs))
  ∧ files w' !! ResultsStorage.status_path rs
    = Some (toString env (ResultsStorage.action_status rs') +:+ LF)
  ∧ (forall key, key ≠ "status" -> key ≠ "duration" ->
       get key (ResultsStorage.action_status rs')
       = get key (ResultsStorage.action_status rs))
  ∧ (ResultsStorage.action_status rs').*1 = (ResultsStorage.action_status rs).*1
  ∧ get "module" (ResultsStorage.action_status rs')
    = Some (JString (ActionRequest.module request))
  ∧ get "action" (ResultsStorage.action_status rs')
    = Some (JString (ActionRequest.action request))
  ∧ get "input" (ResultsStorage.action_status rs')
    = Some (JString (if empty (ActionRequest.paramsTxt request) then "none"
                     else ActionRequest.paramsTxt request))
  ∧ get "status" (ResultsStorage.action_status rs') = Some (JString "completed")
  ∧ get "duration" (ResultsStorage.action_status rs') = Some (JString duration).
Proof.
  intros [-> _]%ResultsStorage_new_returned [-> ->]%ResultsStorage_write_returned.
  destruct (job_record_paths request results_dir_) as (Hoe & Hos & Hes).
  cbn [job_record ResultsStorage.status_path ResultsStorage.action_status
       ResultsStorage.out_path ResultsStorage.err_path] in *.
  unfold final_status.
  cbn [job_record ResultsStorage.status_path ResultsStorage.action_status].
  split_and!.
  - done.
  - unfold finalized.
    cbn [job_record ResultsStorage.status_path ResultsStorage.action_status
         ResultsStorage.out_path ResultsStorage.err_path].
    destruct (empty _); [destruct (ActionOutcome.type _);
                         [|destruct (negb (empty _))]|];
      rewrite ?files_wrote_ne by done; apply files_wrote_eq.
  - intros key Hs Hd. by get_set.
  - rewrite (set_keys_present "duration" _ (JString "0 s")).
    + apply (set_keys_present "status" _ (JString "running")).
      unfold initial_status. by get_set.
    + unfold initial_status. by get_set.
  - unfold initial_status. by get_set.
  - unfold initial_status. by get_set.
  - unfold initial_status. get_set.
    by destruct (empty (ActionRequest.paramsTxt request)).
  - by get_set.
  - by get_set.
Qed.

(** *** The task *)

Lemma is_write_to_write path path' e :
  is_write_to path e || is_write_to path' e = true -> is_write e = true.
Proof. by destruct e. Qed.

Lemma writes_no_other (p : Event -> bool) path path' l :
  (forall e, is_write e = true -> p e = false) ->
  forallb (fun e => is_write_to path e || is_write_to path' e) l = true ->
  List.filter p l = [].
Proof.
  intros Hp. apply filter_forallb_nil. intros e He.
  apply Hp. by apply (is_write_to_write path path').
Qed.

Lemma task_reply_not_done module_ptr request job_id :
  List.filter is_done (task_reply module_ptr request job_id) = [].
Proof.
  unfold task_reply. destruct (Module_.executeAction _ _); [|done].
  by destruct (notify_outcome request).
Qed.

(** The paths on which the task does reach its flag.  In every execution of
    the non-blocking action task in which the three files of the job record
    can be written, the task returns and the completion flag is set to true
    exactly once, as its last step.  This includes the executions in which
    the module raises a request error and those in which a reply cannot be
    sent: neither is assumed away. *)
Lemma task_sets_flag_when_finalized module_ptr request job_id rs w :
  (forall text path,
      path ∈ [ResultsStorage.status_path rs; ResultsStorage.out_path rs;
              ResultsStorage.err_path rs] ->
      writeToFile_error env text path = None) ->
  exists l w',
    nonBlockingActionTask env module_ptr request job_id rs w = (Returned tt, w')
    ∧ done w' = true
    ∧ log w' = log w ++ l ++ [EvDone]
    ∧ List.filter is_done l = [].
Proof.
  intros Hok. rewrite nonBlockingActionTask_run.
  destruct (ResultsStorage_write_log rs (task_locals module_ptr request).1
              (task_locals module_ptr request).2 task_duration
              (replied module_ptr request job_id w)) as (ok & l & Hlog & Hl).
  destruct (ResultsStorage_write_returns rs (task_locals module_ptr request).1
              (task_locals module_ptr request).2 task_duration
              (replied module_ptr request job_id w) Hok) as [rs' Hwrite].
  rewrite Hwrite in Hlog |- *. cbn [snd] in Hlog.
  eexists (task_reply module_ptr request job_id ++ _ :: l), _.
  split_and!; [done|done| |].
  - cbn [log emit]. rewrite Hlog. cbn [replied log].
    by rewrite <- !(assoc_L (++)).
  - rewrite List.filter_app, task_reply_not_done. simpl.
    eapply writes_no_other; [|exact Hl]. by intros [].
Qed.

(** C6. In every execution of the non-blocking action task: when the module
    raises a request error, the only reply of the task is one RPC error
    addressed to the sender of the request and carrying the error text, so
    that no non-blocking response is sent whatever the notify flag is; when
    the module returns, the only reply is a non-blocking response carrying the
    job identifier and the result document if the notify flag is set, and
    there is none otherwise.  Hence a non-blocking response is attempted if
    and only if the execution succeeded and the notify flag is set. *)
Theorem C6_task_replies module_ptr request job_id rs w :
  exists l,
    log (nonBlockingActionTask env module_ptr request job_id rs w).2 = log w ++ l
    ∧ match Module_.executeAction module_ptr request with
      | inr msg =>
          exists m ok,
            List.filter is_send l = [EvSend m ok]
            ∧ send_type m = RPC_ERROR_MSG_TYPE
            ∧ send_endpoints m = [ActionRequest.sender request]
            ∧ get "description" (send_data m) = Some (JString msg)
            ∧ get "transaction_id" (send_data m)
              = Some (JString (ActionRequest.transactionId request))
      | inl outcome =>
          if get_bool "notify_outcome"
               (ParsedChunks.data (ActionRequest.parsedChunks request))
          then exists m ok,
                 List.filter is_send l = [EvSend m ok]
                 ∧ send_type m = NON_BLOCKING_RESPONSE_TYPE
                 ∧ send_endpoints m = [ActionRequest.sender request]
                 ∧ get "job_id" (send_data m) = Some (JString job_id)
                 ∧ get "results" (send_data m)
                   = Some (JObject (ActionOutcome.results outcome))
          else List.filter is_send l = []
      end
    ∧ ((exists e, In e l ∧ is_reply NON_BLOCKING_RESPONSE_TYPE e = true)
       <-> (exists outcome, Module_.executeAction module_ptr request = inl outcome)
           ∧ get_bool "notify_outcome"
               (ParsedChunks.data (ActionRequest.parsedChunks request)) = true).
Proof.
  destruct (nonBlockingActionTask_log module_ptr request job_id rs w)
    as (ok & writes & fin & Hlog & Hwrites & Hfin).
  eexists. split; [exact Hlog|].
  assert (Hsends :
    List.filter is_send
      (task_reply module_ptr request job_id
       ++ EvWriteToFile (toString env (final_status rs task_duration) +:+ LF)
                        (ResultsStorage.status_path rs) ok :: writes ++ fin)
    = task_reply module_ptr request job_id).
  { rewrite List.filter_app, task_reply_sends. simpl.
    rewrite List.filter_app.
    rewrite (writes_no_other is_send _ _ _ ltac:(by intros []) Hwrites).
    destruct Hfin as [-> | ->]; simpl; by rewrite app_nil_r. }
  assert (Hnb : forall e,
    In e (task_reply module_ptr request job_id
          ++ EvWriteToFile (toString env (final_status rs task_duration) +:+ LF)
                           (ResultsStorage.status_path rs) ok :: writes ++ fin) ->
    is_reply NON_BLOCKING_RESPONSE_TYPE e = true ->
    In e (task_reply module_ptr request job_id)).
  { intros e He Hr. rewrite <- Hsends. apply filter_In. split; [done|].
    by destruct e. }
  rewrite Hsends. unfold task_reply in *. fold (notify_outcome request) in *.
  destruct (Module_.executeAction module_ptr request) as [outcome|msg].
  - destruct (notify_outcome request).
    + split.
      * eexists _, _. split_and!; try done; simpl; by get_set.
      * split; [by eauto|]. intros _. eexists.
        split; [apply in_app_iff; left; by left|done].
    + split; [done|]. split; [|by intros [_ ?]].
      intros (e & He & Hr). by destruct (Hnb e He Hr).
  - split.
    + eexists _, _. split_and!; try done; simpl; by get_set.
    + split; [|by intros [[? ?] _]].
      intros (e & He & Hr). destruct (Hnb e He Hr) as [<-|[]]. done.
Qed.

(** C10. In every execution of the task of a job whose module returns and
    whose request has the notify flag set, the non-blocking response is
    attempted before the job record is finalized: when the reply is sent, no
    file has been written yet, so that the status document on disk is still
    the one of initialization, with status running; the first thing the task
    does afterwards is to rewrite the status file, and it sends nothing
    more. *)
Theorem C10_response_before_finalize module_ptr request results_dir_ job_id
    w0 rs w1 w outcome :
  ResultsStorage_new env request results_dir_ w0 = (Returned rs, w1) ->
  files w = files w1 ->
  Module_.executeAction module_ptr request = inl outcome ->
  get_bool "notify_outcome" (ParsedChunks.data (ActionRequest.parsedChunks request))
  = true ->
  exists m ok w_sent ok' rest,
    nonBlockingActionTask_try env module_ptr request job_id w
    = (Returned (outcome, EmptyString), w_sent)
    ∧ log w_sent = log w ++ [EvSend m ok]
    ∧ send_type m = NON_BLOCKING_RESPONSE_TYPE
    ∧ files w_sent !! ResultsStorage.status_path rs
      = Some (toString env (ResultsStorage.action_status rs) +:+ LF)
    ∧ get "status" (ResultsStorage.action_status rs) = Some (JString "running")
    ∧ log (nonBlockingActionTask env module_ptr request job_id rs w).2
      = log w_sent
          ++ EvWriteToFile
               (toString env
                  (set "duration" (JString (to_string env (elapsedSeconds env) +:+ " s"))
                     (set "status" (JString "completed")
                        (ResultsStorage.action_status rs))) +:+ LF)
               (ResultsStorage.status_path rs) ok' :: rest
    ∧ List.filter is_send rest = [].
Proof.
  intros [-> ->]%ResultsStorage_new_returned Hfiles Hexec Hnotify.
  destruct (nonBlockingActionTask_log module_ptr request job_id
              (job_record request results_dir_) w)
    as (ok & writes & fin & Hlog & Hwrites & Hfin).
  rewrite nonBlockingActionTask_try_run.
  unfold task_locals, replied, task_reply, notify_outcome in *.
  rewrite Hexec, Hnotify in *.
  eexists _, _, _, _, _. split_and!.
  - done.
  - done.
  - done.
  - cbn [files]. rewrite Hfiles. apply files_wrote_eq.
  - simpl. unfold initial_status. by get_set.
  - rewrite Hlog. cbn [log]. by rewrite <- !(assoc_L (++)).
  - rewrite List.filter_app.
    rewrite (writes_no_other is_send _ _ _ ltac:(by intros []) Hwrites).
    by destruct Hfin as [-> | ->].
Qed.

(** *** The dispatcher *)

Lemma processRequest_non_blocking module_ptr request w :
  ActionRequest.type request = NonBlocking ->
  processRequest env module_ptr request w
  = match processNonBlockingRequest env module_ptr request w with
    | (Returned a, w') => (Returned a, w')
    | (Thrown e, w') =>
        if is_request_error e then replyRPCError env request (what e) w'
        else (Thrown e, w')
    end.
Proof.
  intros Htype. unfold processRequest, try_catch. rewrite Htype.
  destruct (processNonBlockingRequest _ _ _ _) as [[a|e] w']; [done|].
  by destruct (is_request_error e).
Qed.

(** The log of a non-blocking dispatch whose results directory is there: file
    system events, the spawn if there is one, and the provisional reply. *)
Lemma processNonBlockingRequest_log module_ptr request w :
  present (fresh w) = true \/ createDirectory_ok env results_dir = true ->
  exists pre error w',
    processNonBlockingRequest env module_ptr request (fresh w) = (Returned tt, w')
    ∧ forallb is_fs pre = true
    ∧ (log w' = pre ++ [EvSend (provisional_message request (getUUID env) error)
                               (delivered (provisional_message request (getUUID env) error))]
       \/ log w'
          = pre ++ [EvSpawn (mkTask module_ptr request (getUUID env)
                               (job_record request results_dir));
                    EvSend (provisional_message request (getUUID env) error)
                           (delivered (provisional_message request (getUUID env) error))]
          ∧ exists mk,
              List.filter is_write mk = []
              ∧ pre = mk ++ [EvWriteToFile EmptyString (results_dir +:+ "/stdout") true;
                           EvWriteToFile EmptyString (results_dir +:+ "/stderr") true;
                           EvWriteToFile (toString env (initial_status request) +:+ LF)
                                         (results_dir +:+ "/status") true]).
Proof.
  intros Hdir. rewrite (processNonBlockingRequest_run _ _ _ Hdir).
  assert (Hmk : exists mk, log (with_directory (fresh w)) = mk ∧ forallb is_fs mk = true
                           ∧ List.filter is_write mk = []).
  { unfold with_directory. destruct (present (fresh w)); by eexists. }
  destruct Hmk as (mk & Hmk & Hfs & Hnw).
  destruct (ResultsStorage_new _ _ _ _) as [[rs|e] w'] eqn:Hnew.
  - apply ResultsStorage_new_returned in Hnew as [-> ->].
    destruct (thread_error env) as [msg|]; rewrite replyProvisionalResponse_run;
      eexists (mk ++ [EvWriteToFile EmptyString (results_dir +:+ "/stdout") true;
                      EvWriteToFile EmptyString (results_dir +:+ "/stderr") true;
                      EvWriteToFile (toString env (initial_status request) +:+ LF)
                                    (results_dir +:+ "/status") true]), _, _;
      (split; [done|]);
      (split; [by rewrite forallb_app, Hfs|]).
    + left. cbn [log emit wrote]. rewrite Hmk. by rewrite <- !(assoc_L (++)).
    + right. split; [|by eexists].
      cbn [log emit wrote]. rewrite Hmk. by rewrite <- !(assoc_L (++)).
  - apply ResultsStorage_new_thrown in Hnew as (_ & (l & Hlog & Hl) & _).
    rewrite replyProvisionalResponse_run.
    eexists (mk ++ l), _, _. split; [done|]. split.
    + rewrite forallb_app, Hfs. simpl.
      apply forallb_forall. intros x Hx.
      apply (proj1 (forallb_forall _ _) Hl) in Hx. by destruct x.
    + left. cbn [log emit]. by rewrite Hlog, Hmk.
Qed.

Lemma is_fs_no_spawn l : forallb is_fs l = true -> List.filter is_spawn l = [].
Proof. apply filter_forallb_nil. by intros []. Qed.

Lemma is_fs_no_send l : forallb is_fs l = true -> List.filter is_send l = [].
Proof. apply filter_forallb_nil. by intros []. Qed.

Lemma is_fs_no_provisional l :
  forallb is_fs l = true -> List.filter (is_reply PROVISIONAL_RESPONSE_TYPE) l = [].
Proof. apply filter_forallb_nil. by intros []. Qed.

(** The task sends no provisional reply. *)
Lemma task_no_provisional task w :
  List.filter (is_reply PROVISIONAL_RESPONSE_TYPE) (log (run_task env task (fresh w)).2) = [].
Proof.
  unfold run_task.
  destruct (nonBlockingActionTask_log (task_module_ptr task) (task_request task)
              (task_job_id task) (task_results_storage task) (fresh w))
    as (ok & writes & fin & -> & Hwrites & Hfin).
  cbn [fresh log app]. rewrite List.filter_app, task_reply_not_provisional. simpl.
  rewrite List.filter_app.
  rewrite (writes_no_other (is_reply PROVISIONAL_RESPONSE_TYPE) _ _ _
             ltac:(by intros []) Hwrites).
  by destruct Hfin as [-> | ->].
Qed.

Lemma forallb_Forall_impl (q : Event -> bool) (P : Event -> Prop) l :
  (forall e, q e = true -> P e) -> forallb q l = true -> Forall P l.
Proof.
  intros Hq Hl. apply Forall_forall. intros e He.
  apply Hq, (proj1 (forallb_forall q l) Hl). by apply list_elem_of_In.
Qed.

(** A failed initialization: successful writes to the files of the record,
    then the write that failed. *)
Lemma ResultsStorage_new_failure request results_dir_ w e w' :
  ResultsStorage_new env request results_dir_ w = (Thrown e, w') ->
  exists msg l text path,
    e = file_error msg
    ∧ log w' = log w ++ l ++ [EvWriteToFile text path false]
    ∧ writeToFile_error env text path = Some msg
    ∧ forallb (fun e => is_write_to (results_dir_ +:+ "/stdout") e
                        || is_write_to (results_dir_ +:+ "/stderr") e
                        || is_write_to (results_dir_ +:+ "/status") e)
              (l ++ [EvWriteToFile text path false]) = true.
Proof.
  unfold ResultsStorage_new, ResultsStorage_initialize, mbind, M_bind, mret, M_ret,
    writeToFile.
  cbn [ResultsStorage.status_path ResultsStorage.out_path ResultsStorage.err_path
       ResultsStorage.module ResultsStorage.action ResultsStorage.action_status].
  intros H.
  repeat case_match; simplify_eq; cbn [log emit];
    first [ eexists _, [_; _], _, _; split_and!;
            [done|by rewrite <- !(assoc_L (++))|done|]
          | eexists _, [_], _, _; split_and!;
            [done|by rewrite <- !(assoc_L (++))|done|]
          | eexists _, [], _, _; split_and!; [done|done|done|] ];
    simpl;
    rewrite ?(bool_decide_eq_true_2 (results_dir_ +:+ "/stdout" = _) eq_refl),
            ?(bool_decide_eq_true_2 (results_dir_ +:+ "/stderr" = _) eq_refl),
            ?(bool_decide_eq_true_2 (results_dir_ +:+ "/status" = _) eq_refl);
    by rewrite ?orb_true_r.
Qed.

(** The log of the dispatch of a non-blocking request whose directory is
    there: a record that cannot be initialized, a thread that cannot be
    started, or a task spawned; the provisional reply is its last event. *)
Lemma dispatch_with_directory module_ptr request w :
  ActionRequest.type request = NonBlocking ->
  present (fresh w) = true \/ createDirectory_ok env results_dir = true ->
  let run := processRequest env module_ptr request (fresh w) in
  let mk := log (with_directory (fresh w)) in
  let provisional error :=
    EvSend (provisional_message request (getUUID env) error)
           (delivered (provisional_message request (getUUID env) error)) in
  let initialized :=
    [EvWriteToFile EmptyString (results_dir +:+ "/stdout") true;
     EvWriteToFile EmptyString (results_dir +:+ "/stderr") true;
     EvWriteToFile (toString env (initial_status request) +:+ LF)
                   (results_dir +:+ "/status") true] in
  let task := mkTask module_ptr request (getUUID env) (job_record request results_dir) in
  run.1 = Returned tt
  ∧ ((exists msg l text path,
        log run.2 = mk ++ (l ++ [EvWriteToFile text path false])
                       ++ [provisional ("failed to initialize result files: " +:+ msg)]
        ∧ writeToFile_error env text path = Some msg
        ∧ forallb (fun e => is_write_to (results_dir +:+ "/stdout") e
                            || is_write_to (results_dir +:+ "/stderr") e
                            || is_write_to (results_dir +:+ "/status") e)
                  (l ++ [EvWriteToFile text path false]) = true)
     \/ (exists msg,
           thread_error env = Some msg
           ∧ log run.2 = mk ++ initialized
                            ++ [provisional ("failed to start action task: " +:+ msg)])
     \/ (thread_error env = None
         ∧ log run.2 = mk ++ initialized ++ [EvSpawn task; provisional EmptyString])).
Proof.
  intros Htype Hdir run mk provisional initialized task. subst run.
  rewrite (processRequest_non_blocking _ _ _ Htype).
  rewrite (processNonBlockingRequest_run _ _ _ Hdir).
  destruct (ResultsStorage_new _ _ _ _) as [[rs|e] w1] eqn:Hnew.
  - apply ResultsStorage_new_returned in Hnew as [-> ->].
    destruct (thread_error env) as [msg|] eqn:Hthread;
      rewrite replyProvisionalResponse_run; cbn [fst snd log emit wrote]; fold mk;
      (split; [done|]); right.
    + left. exists msg. split; [done|]. by rewrite <- !(assoc_L (++)).
    + right. split; [done|]. by rewrite <- !(assoc_L (++)).
  - apply ResultsStorage_new_failure in Hnew
      as (msg & l & text & path & -> & Hlog & Hfail & Hl).
    rewrite replyProvisionalResponse_run. cbn [fst snd log emit spawn_err_msg].
    split; [done|]. left. exists msg, l, text, path.
    rewrite Hlog. fold mk. split_and!; [by rewrite <- !(assoc_L (++))|done|done].
Qed.

(** The log of the thread of a job. *)
Lemma run_task_outcome task w :
  let run := run_task env task (fresh w) in
  let text :=
    toString env (final_status (task_results_storage task) task_duration) +:+ LF in
  exists ok writes fin,
    log run.2
    = task_reply (task_module_ptr task) (task_request task) (task_job_id task)
        ++ EvWriteToFile text (ResultsStorage.status_path (task_results_storage task)) ok
        :: writes ++ fin
    ∧ forallb (fun e => is_write_to (ResultsStorage.out_path (task_results_storage task)) e
                        || is_write_to (ResultsStorage.err_path (task_results_storage task)) e)
              writes = true
    ∧ (ok = true
       <-> writeToFile_error env text
             (ResultsStorage.status_path (task_results_storage task)) = None)
    ∧ (run.1 = Returned tt ∧ ok = true ∧ fin = [EvDone]
       \/ (exists e, run.1 = Thrown e) ∧ fin = []).
Proof.
  intros run text. subst run text. unfold run_task.
  destruct (nonBlockingActionTask_outcome (task_module_ptr task) (task_request task)
              (task_job_id task) (task_results_storage task) (fresh w))
    as (ok & writes & fin & Hlog & Hwrites & Hok & Hend).
  exists ok, writes, fin. split_and!; [|done|done|done].
  by rewrite Hlog.
Qed.

(** What is observed for a non-blocking request whose directory is there:
    a record that cannot be initialized, a thread that cannot be started, or a
    task spawned, which returns after its flag or is left by a file error. *)
Lemma observe_with_directory sched module_ptr request w :
  ActionRequest.type request = NonBlocking ->
  present (fresh w) = true \/ createDirectory_ok env results_dir = true ->
  let tr := observe env sched module_ptr request w in
  let ab := aborted env module_ptr request w in
  let mk := log (with_directory (fresh w)) in
  let provisional error :=
    EvSend (provisional_message request (getUUID env) error)
           (delivered (provisional_message request (getUUID env) error)) in
  let initialized :=
    [EvWriteToFile EmptyString (results_dir +:+ "/stdout") true;
     EvWriteToFile EmptyString (results_dir +:+ "/stderr") true;
     EvWriteToFile (toString env (initial_status request) +:+ LF)
                   (results_dir +:+ "/status") true] in
  let task := mkTask module_ptr request (getUUID env) (job_record request results_dir) in
  let completed :=
    toString env (final_status (job_record request results_dir) task_duration) +:+ LF in
  (exists msg l text path,
     tr = mk ++ (l ++ [EvWriteToFile text path false])
             ++ [provisional ("failed to initialize result files: " +:+ msg)]
     ∧ writeToFile_error env text path = Some msg
     ∧ forallb (fun e => is_write_to (results_dir +:+ "/stdout") e
                         || is_write_to (results_dir +:+ "/stderr") e
                         || is_write_to (results_dir +:+ "/status") e)
               (l ++ [EvWriteToFile text path false]) = true
     ∧ ab = false)
  \/ (exists msg,
        thread_error env = Some msg
        ∧ tr = mk ++ initialized
                  ++ [provisional ("failed to start action task: " +:+ msg)]
        ∧ ab = false)
  \/ (thread_error env = None
      ∧ exists ok writes fin rest,
          tr = mk ++ initialized ++ EvSpawn task :: rest
          ∧ forallb (fun e => is_write_to (results_dir +:+ "/stdout") e
                              || is_write_to (results_dir +:+ "/stderr") e)
                    writes = true
          ∧ (ok = true
             <-> writeToFile_error env completed (results_dir +:+ "/status") = None)
          ∧ (ab = false ∧ ok = true ∧ fin = [EvDone]
             ∧ rest = interleave sched [provisional EmptyString]
                        (task_reply module_ptr request (getUUID env)
                         ++ EvWriteToFile completed (results_dir +:+ "/status") ok
                         :: writes ++ fin)
             \/ ab = true ∧ fin = []
                ∧ rest = interleave_abort sched [provisional EmptyString]
                           (task_reply module_ptr request (getUUID env)
                            ++ EvWriteToFile completed (results_dir +:+ "/status") ok
                            :: writes ++ fin))).
Proof.
  intros Htype Hdir tr ab mk provisional initialized task completed. subst tr ab.
  destruct (dispatch_with_directory module_ptr request w Htype Hdir) as [_ Hlog].
  cbv zeta in Hlog. fold mk in Hlog.
  assert (Hfs : forallb is_fs mk = true).
  { subst mk. unfold with_directory. by destruct (present (fresh w)). }
  assert (Hnospawn : List.filter is_spawn mk = []) by (by apply is_fs_no_spawn).
  unfold observe, aborted. cbv zeta.
  destruct Hlog as [(msg & l & text & path & Hlog & Hfail & Hl)
                   |[(msg & Hthread & Hlog)|(Hthread & Hlog)]]; rewrite Hlog.
  - left. exists msg, l, text, path.
    assert (Hl' : List.filter is_spawn (l ++ [EvWriteToFile text path false]) = [])
      by (eapply filter_forallb_nil; [|exact Hl]; by intros []).
    rewrite split_spawn_none; [done|].
    rewrite List.filter_app. rewrite (List.filter_app _ (l ++ _)).
    by rewrite Hnospawn, Hl'.
  - right. left. exists msg.
    rewrite split_spawn_none; [done|].
    by rewrite !List.filter_app, Hnospawn.
  - right. right. split; [done|].
    assert (Heq : forall (a b : list Event) x y, a ++ b ++ [x; y] = (a ++ b) ++ x :: [y])
      by (intros; by rewrite <- (assoc_L (++))).
    rewrite Heq.
    rewrite split_spawn_app by (by rewrite List.filter_app, Hnospawn).
    destruct (run_task_outcome task
                (processRequest env module_ptr request (fresh w)).2)
      as (ok & writes & fin & Htask & Hwrites & Hok & Hend).
    cbv zeta in Htask, Hok, Hend.
    cbn [task task_module_ptr task_request task_job_id task_results_storage
         job_record ResultsStorage.status_path ResultsStorage.out_path
         ResultsStorage.err_path] in Htask, Hwrites, Hok.
    subst task. exists ok, writes, fin.
    destruct Hend as [(Hret & Htrue & ->)|([e Hthrown] & ->)].
    + rewrite Hret. eexists. split; [by rewrite <- (assoc_L (++))|].
      split; [done|]. split; [done|]. left. split_and!; try done.
      by rewrite Htask.
    + rewrite Hthrown. eexists. split; [by rewrite <- (assoc_L (++))|].
      split; [done|]. split; [done|]. right. split_and!; try done.
      by rewrite Htask.
Qed.

(** What is observed, case by case: a blocking request answered or refused;
    a non-blocking request without its directory; with it, a record that
    cannot be initialized, a thread that cannot be started, a task spawned. *)
Lemma observe_cases sched module_ptr request w :
  let tr := observe env sched module_ptr request w in
  let ab := aborted env module_ptr request w in
  let provisional error :=
    EvSend (provisional_message request (getUUID env) error)
           (delivered (provisional_message request (getUUID env) error)) in
  let initialized :=
    [EvWriteToFile EmptyString (results_dir +:+ "/stdout") true;
     EvWriteToFile EmptyString (results_dir +:+ "/stderr") true;
     EvWriteToFile (toString env (initial_status request) +:+ LF)
                   (results_dir +:+ "/status") true] in
  let task := mkTask module_ptr request (getUUID env) (job_record request results_dir) in
  let completed :=
    toString env (final_status (job_record request results_dir) task_duration) +:+ LF in
  (ActionRequest.type request = Blocking
   ∧ exists outcome,
       Module_.executeAction module_ptr request = inl outcome
       ∧ tr = [EvSend (blocking_message request (ActionOutcome.results outcome))
                      (delivered (blocking_message request (ActionOutcome.results outcome)))]
       ∧ ab = false)
  \/ (ActionRequest.type request = Blocking
      ∧ exists msg,
          Module_.executeAction module_ptr request = inr msg
          ∧ tr = [EvSend (rpc_error_message request msg)
                         (delivered (rpc_error_message request msg))]
          ∧ ab = false)
  \/ (ActionRequest.type request = NonBlocking
      ∧ present (fresh w) = false
      ∧ createDirectory_ok env results_dir = false
      ∧ tr = [EvCreateDirectory results_dir false;
              EvSend (rpc_error_message request
                        ("failed to create directory '" +:+ results_dir +:+ "'"))
                     (delivered (rpc_error_message request
                        ("failed to create directory '" +:+ results_dir +:+ "'")))]
      ∧ ab = false)
  \/ (ActionRequest.type request = NonBlocking
      ∧ exists mk,
          (mk = [] ∧ present (fresh w) = true
           \/ mk = [EvCreateDirectory results_dir true] ∧ present (fresh w) = false)
          ∧ ((exists msg l text path,
                tr = mk ++ (l ++ [EvWriteToFile text path false])
                        ++ [provisional ("failed to initialize result files: " +:+ msg)]
                ∧ writeToFile_error env text path = Some msg
                ∧ forallb (fun e => is_write_to (results_dir +:+ "/stdout") e
                                    || is_write_to (results_dir +:+ "/stderr") e
                                    || is_write_to (results_dir +:+ "/status") e)
                          (l ++ [EvWriteToFile text path false]) = true
                ∧ ab = false)
             \/ (exists msg,
                   thread_error env = Some msg
                   ∧ tr = mk ++ initialized
                             ++ [provisional ("failed to start action task: " +:+ msg)]
                   ∧ ab = false)
             \/ (thread_error env = None
                 ∧ exists ok writes fin rest,
                     tr = mk ++ initialized ++ EvSpawn task :: rest
                     ∧ forallb (fun e => is_write_to (results_dir +:+ "/stdout") e
                                         || is_write_to (results_dir +:+ "/stderr") e)
                               writes = true
                     ∧ (ok = true
                        <-> writeToFile_error env completed (results_dir +:+ "/status")
                            = None)
                     ∧ (ab = false ∧ ok = true ∧ fin = [EvDone]
                        ∧ rest = interleave sched [provisional EmptyString]
                                   (task_reply module_ptr request (getUUID env)
                                    ++ EvWriteToFile completed (results_dir +:+ "/status") ok
                                    :: writes ++ fin)
                        \/ ab = true ∧ fin = []
                           ∧ rest = interleave_abort sched [provisional EmptyString]
                                      (task_reply module_ptr request (getUUID env)
                                       ++ EvWriteToFile completed
                                            (results_dir +:+ "/status") ok
                                       :: writes ++ fin))))).
Proof.
  intros tr ab provisional initialized task completed. subst tr ab.
  destruct (ActionRequest.type request) eqn:Htype.
  - unfold observe, aborted, processRequest, try_catch. rewrite Htype.
    rewrite processBlockingRequest_run.
    destruct (Module_.executeAction module_ptr request) as [outcome|msg].
    + left. split; [done|]. by exists outcome.
    + right. left. split; [done|]. exists msg. split; [done|].
      cbn [is_request_error what]. by rewrite replyRPCError_run.
  - right. right.
    destruct (present (fresh w)) eqn:Hp;
      [|destruct (createDirectory_ok env results_dir) eqn:Hc].
    + right. split; [done|]. exists []. split; [by left|].
      assert (Hmk : log (with_directory (fresh w)) = [])
        by (unfold with_directory; by rewrite Hp).
      pose proof (observe_with_directory sched module_ptr request w Htype
                    (or_introl Hp)) as H.
      cbv zeta in H. rewrite Hmk in H. exact H.
    + right. split; [done|]. exists [EvCreateDirectory results_dir true].
      split; [by right|].
      assert (Hmk : log (with_directory (fresh w)) = [EvCreateDirectory results_dir true])
        by (unfold with_directory; by rewrite Hp).
      pose proof (observe_with_directory sched module_ptr request w Htype
                    (or_intror Hc)) as H.
      cbv zeta in H. rewrite Hmk in H. exact H.
    + left. split_and!; try done.
      * unfold observe. rewrite (processRequest_non_blocking _ _ _ Htype).
        rewrite (processNonBlockingRequest_no_directory _ _ (fresh w) Hp Hc).
        cbn [is_request_error what]. by rewrite replyRPCError_run.
      * unfold aborted. rewrite (processRequest_non_blocking _ _ _ Htype).
        rewrite (processNonBlockingRequest_no_directory _ _ (fresh w) Hp Hc).
        cbn [is_request_error what]. by rewrite replyRPCError_run.
Qed.

Lemma task_reply_short module_ptr request job_id :
  (length (task_reply module_ptr request job_id) <= 1)%nat.
Proof.
  unfold task_reply. destruct (Module_.executeAction _ _); simpl; [|lia].
  destruct (notify_outcome request); simpl; lia.
Qed.

Lemma task_log_sends module_ptr request job_id text path ok writes fin path1 path2 :
  forallb (fun e => is_write_to path1 e || is_write_to path2 e) writes = true ->
  fin = [] \/ fin = [EvDone] ->
  List.filter is_send
    (task_reply module_ptr request job_id ++ EvWriteToFile text path ok :: writes ++ fin)
  = task_reply module_ptr request job_id.
Proof.
  intros Hwrites Hfin. rewrite List.filter_app, task_reply_sends. simpl.
  rewrite List.filter_app.
  rewrite (writes_no_other is_send _ _ _ ltac:(by intros []) Hwrites).
  destruct Hfin as [-> | ->]; simpl; by rewrite app_nil_r.
Qed.

Lemma task_log_no_provisional module_ptr request job_id text path ok writes fin
    path1 path2 :
  forallb (fun e => is_write_to path1 e || is_write_to path2 e) writes = true ->
  fin = [] \/ fin = [EvDone] ->
  List.filter (is_reply PROVISIONAL_RESPONSE_TYPE)
    (task_reply module_ptr request job_id ++ EvWriteToFile text path ok :: writes ++ fin)
  = [].
Proof.
  intros Hwrites Hfin. rewrite List.filter_app, task_reply_not_provisional. simpl.
  rewrite List.filter_app.
  rewrite (writes_no_other (is_reply PROVISIONAL_RESPONSE_TYPE) _ _ _
             ltac:(by intros []) Hwrites).
  by destruct Hfin as [-> | ->].
Qed.


Lemma present_or_created w :
  spool_dir_ env +:+ getUUID env ∈ dirs w
  \/ is_Some (files w !! (spool_dir_ env +:+ getUUID env))
  \/ createDirectory_ok env (spool_dir_ env +:+ getUUID env) = true ->
  present (fresh w) = true \/ createDirectory_ok env results_dir = true.
Proof.
  intros Hdir. unfold present, results_dir. cbn [fresh dirs files].
  destruct Hdir as [H|[H|H]]; [left|left|by right].
  - by rewrite (bool_decide_eq_true_2 _ H).
  - by rewrite (bool_decide_eq_true_2 (is_Some _) H), orb_true_r.
Qed.

(** C1 (as amended). For every non-blocking request whose results directory
    exists or can be created, the dispatch returns and its only reply is one
    provisional reply, attempted to the sender as the last step of the
    dispatch, whether the job record can be initialized and the task spawned
    or not.  Under every schedule of the dispatcher and the task, what is
    observed holds at most one provisional reply, and exactly one unless a
    file error that leaves the task has ended the process. *)
Theorem C1_provisional_reply sched module_ptr request w :
  ActionRequest.type request = NonBlocking ->
  (spool_dir_ env +:+ getUUID env ∈ dirs w
   \/ is_Some (files w !! (spool_dir_ env +:+ getUUID env))
   \/ createDirectory_ok env (spool_dir_ env +:+ getUUID env) = true) ->
  (exists pre m ok w',
     processRequest env module_ptr request (fresh w) = (Returned tt, w')
     ∧ log w' = pre ++ [EvSend m ok]
     ∧ send_type m = PROVISIONAL_RESPONSE_TYPE
     ∧ send_endpoints m = [ActionRequest.sender request]
     ∧ List.filter is_send pre = [])
  ∧ (length (List.filter (is_reply PROVISIONAL_RESPONSE_TYPE)
                         (observe env sched module_ptr request w)) <= 1)%nat
  ∧ (aborted env module_ptr request w = false ->
     length (List.filter (is_reply PROVISIONAL_RESPONSE_TYPE)
                         (observe env sched module_ptr request w)) = 1%nat).
Proof.
  intros Htype Hdir. apply present_or_created in Hdir as Hdir'.
  split.
  { destruct (processNonBlockingRequest_log module_ptr request w Hdir')
      as (pre & error & w' & Hrun & Hpre & Hlog).
    rewrite (processRequest_non_blocking _ _ _ Htype), Hrun.
    destruct Hlog as [Hlog | [Hlog _]].
    - eexists pre, _, _, _.
      split_and!; [done|exact Hlog|done|done|by apply is_fs_no_send].
    - eexists (pre ++ [_]), _, _, _.
      split_and!; [done|rewrite Hlog; by rewrite <- (assoc_L (++))|done|done|].
      by rewrite List.filter_app, (is_fs_no_send _ Hpre). }
  assert (Hmk : List.filter (is_reply PROVISIONAL_RESPONSE_TYPE)
                  (log (with_directory (fresh w))) = []).
  { unfold with_directory. by destruct (present (fresh w)). }
  destruct (observe_with_directory sched module_ptr request w Htype Hdir')
    as [(msg & l & text & path & -> & _ & Hl & _)
       |[(msg & _ & -> & _)|(_ & ok & writes & fin & rest & -> & Hwrites & _ & Hrest)]].
  - assert (Hl' : List.filter (is_reply PROVISIONAL_RESPONSE_TYPE)
                    (l ++ [EvWriteToFile text path false]) = [])
      by (eapply filter_forallb_nil; [|exact Hl]; by intros []).
    rewrite List.filter_app, Hmk. rewrite List.filter_app, Hl'. simpl.
    split; [lia|done].
  - rewrite !List.filter_app, Hmk. simpl. split; [lia|done].
  - rewrite !List.filter_app, Hmk. cbn [List.filter is_reply app].
    assert (Htask : forall fin',
      fin' = [] \/ fin' = [EvDone] ->
      List.filter (is_reply PROVISIONAL_RESPONSE_TYPE)
        (task_reply module_ptr request (getUUID env)
         ++ EvWriteToFile
              (toString env (final_status (job_record request results_dir) task_duration)
               +:+ LF) (results_dir +:+ "/status") ok :: writes ++ fin') = []).
    { intros fin' Hfin'. by apply (task_log_no_provisional _ _ _ _ _ _ _ _ _ _ Hwrites). }
    destruct Hrest as [(Hab & _ & -> & ->)|(Hab & -> & ->)].
    + rewrite interleave_filter_length, Htask by (by right). simpl.
      split; [lia|done].
    + split; [|by rewrite Hab].
      etransitivity; [apply interleave_abort_filter_length|].
      rewrite Htask by (by left). simpl. lia.
Qed.

(** What the log of a task is made of. *)
Lemma task_log_In task w e :
  In e (log (run_task env task (fresh w)).2) ->
  In e (task_reply (task_module_ptr task) (task_request task) (task_job_id task))
  \/ (exists ok,
        e = EvWriteToFile
              (toString env (final_status (task_results_storage task) task_duration) +:+ LF)
              (ResultsStorage.status_path (task_results_storage task)) ok)
  \/ is_write_to (ResultsStorage.out_path (task_results_storage task)) e
     || is_write_to (ResultsStorage.err_path (task_results_storage task)) e = true
  \/ e = EvDone.
Proof.
  unfold run_task.
  destruct (nonBlockingActionTask_log (task_module_ptr task) (task_request task)
              (task_job_id task) (task_results_storage task) (fresh w))
    as (ok & writes & fin & -> & Hwrites & Hfin).
  cbn [fresh log app]. rewrite in_app_iff. simpl. rewrite in_app_iff.
  intros [H|[<-|[H|H]]]; [by left|right; left; by eexists| |].
  - right. right. left. by apply (proj1 (forallb_forall _ _) Hwrites).
  - destruct Hfin as [-> | ->]; [done|]. destruct H as [<-|[]]. by do 3 right.
Qed.

Lemma task_log_status_write task w :
  exists ok,
    In (EvWriteToFile
          (toString env (final_status (task_results_storage task) task_duration) +:+ LF)
          (ResultsStorage.status_path (task_results_storage task)) ok)
       (log (run_task env task (fresh w)).2).
Proof.
  unfold run_task.
  destruct (nonBlockingActionTask_log (task_module_ptr task) (task_request task)
              (task_job_id task) (task_results_storage task) (fresh w))
    as (ok & writes & fin & -> & Hwrites & Hfin).
  exists ok. cbn [fresh log app]. rewrite in_app_iff. right. by left.
Qed.

Lemma task_reply_In module_ptr request job_id e :
  In e (task_reply module_ptr request job_id) -> is_send e = true.
Proof.
  rewrite <- task_reply_sends. by intros [_ ?]%filter_In.
Qed.

(** C3 (as amended). For every non-blocking request whose task is spawned,
    under every schedule: the status document is written with status running
    before the spawn and no reply is sent before the spawn; the provisional
    reply is attempted after the spawn, at most once; after the spawn the task
    attempts to rewrite the status document with status completed, which
    succeeds when the status file can be written, and the status file is
    written with nothing else.  Unless a file error that leaves the task has
    ended the process, the provisional reply is attempted exactly once and
    the status document is rewritten.  (No order is stated between the
    provisional reply and the rewriting of the status document.) *)
Theorem C3_reply_and_status_order sched module_ptr request w task :
  ActionRequest.type request = NonBlocking ->
  (spool_dir_ env +:+ getUUID env ∈ dirs w
   \/ is_Some (files w !! (spool_dir_ env +:+ getUUID env))
   \/ createDirectory_ok env (spool_dir_ env +:+ getUUID env) = true) ->
  In (EvSpawn task) (observe env sched module_ptr request w) ->
  exists pre rest running completed,
    observe env sched module_ptr request w = pre ++ EvSpawn task :: rest
    ∧ get "status" running = Some (JString "running")
    ∧ get "status" completed = Some (JString "completed")
    ∧ In (EvWriteToFile (toString env running +:+ LF)
                        ((spool_dir_ env +:+ getUUID env) +:+ "/status") true) pre
    ∧ (forall text ok,
         In (EvWriteToFile text ((spool_dir_ env +:+ getUUID env) +:+ "/status") ok) pre ->
         text = toString env running +:+ LF)
    ∧ List.filter is_send pre = []
    ∧ (length (List.filter (is_reply PROVISIONAL_RESPONSE_TYPE) rest) <= 1)%nat
    ∧ (exists ok,
         In (EvWriteToFile (toString env completed +:+ LF)
                           ((spool_dir_ env +:+ getUUID env) +:+ "/status") ok) rest
         ∧ (ok = true
            <-> writeToFile_error env (toString env completed +:+ LF)
                  ((spool_dir_ env +:+ getUUID env) +:+ "/status") = None))
    ∧ (forall text ok,
         In (EvWriteToFile text ((spool_dir_ env +:+ getUUID env) +:+ "/status") ok) rest ->
         text = toString env completed +:+ LF)
    ∧ (aborted env module_ptr request w = false ->
       length (List.filter (is_reply PROVISIONAL_RESPONSE_TYPE) rest) = 1%nat
       ∧ In (EvWriteToFile (toString env completed +:+ LF)
                           ((spool_dir_ env +:+ getUUID env) +:+ "/status") true) rest).
Proof.
  intros Htype Hdir. apply present_or_created in Hdir as Hdir'.
  assert (Hmk : forallb is_fs (log (with_directory (fresh w))) = true
                ∧ List.filter is_write (log (with_directory (fresh w))) = []).
  { unfold with_directory. by destruct (present (fresh w)). }
  destruct Hmk as [Hfs Hnw].
  assert (Hnospawn : forall l, forallb is_fs l = true -> ~ In (EvSpawn task) l).
  { intros l Hl Hin. by apply (proj1 (forallb_forall _ _) Hl) in Hin. }
  destruct (job_record_paths request results_dir) as (Hoe & Hos & Hes).
  cbn [job_record ResultsStorage.status_path ResultsStorage.out_path
       ResultsStorage.err_path] in Hoe, Hos, Hes.
  destruct (observe_with_directory sched module_ptr request w Htype Hdir')
    as [(msg & l & text & path & -> & _ & Hl & _)
       |[(msg & _ & -> & _)
        |(_ & ok & writes & fin & rest & -> & Hwrites & Hok & Hrest)]].
  { intros [Hin|[Hin|[Hin|[]]]%in_app_iff]%in_app_iff; [|  |done].
    - by destruct (Hnospawn _ Hfs).
    - apply (proj1 (forallb_forall _ _) Hl) in Hin. done. }
  { intros [Hin|[Hin|[Hin|[]]]%in_app_iff]%in_app_iff; [| |done].
    - by destruct (Hnospawn _ Hfs).
    - by destruct Hin as [?|[?|[?|[]]]]. }
  set (task0 := mkTask module_ptr request (getUUID env) (job_record request results_dir)).
  set (provisional := EvSend _ _) in Hrest.
  set (completed := final_status (job_record request results_dir) task_duration) in *.
  assert (Hfin : fin = [] \/ fin = [EvDone])
    by (destruct Hrest as [(_ & _ & -> & _)|(_ & -> & _)]; tauto).
  set (T := task_reply module_ptr request (getUUID env)
            ++ EvWriteToFile (toString env completed +:+ LF) (results_dir +:+ "/status") ok
            :: writes ++ fin) in Hrest.
  assert (Hrest' : rest = interleave sched [provisional] T
                   \/ rest = interleave_abort sched [provisional] T)
    by (destruct Hrest as [(_ & _ & _ & ->)|(_ & _ & ->)]; tauto).
  destruct (interleavings sched [provisional] T rest Hrest')
    as (_ & Hcount & Hin_rest & Hin_task).
  assert (HT : forall e, In e T ->
            is_send e = true
            \/ e = EvWriteToFile (toString env completed +:+ LF)
                                 (results_dir +:+ "/status") ok
            \/ is_write_to (results_dir +:+ "/stdout") e
               || is_write_to (results_dir +:+ "/stderr") e = true
            \/ e = EvDone).
  { intros e [Hin|[<-|[Hin|Hin]%in_app_iff]]%in_app_iff.
    - left. by apply task_reply_In in Hin.
    - right. by left.
    - right. right. left. by apply (proj1 (forallb_forall _ _) Hwrites).
    - do 3 right. destruct Hfin as [-> | ->]; [done|]. by destruct Hin as [<-|[]]. }
  assert (Hprov : List.filter (is_reply PROVISIONAL_RESPONSE_TYPE) T = [])
    by (by apply (task_log_no_provisional _ _ _ _ _ _ _ _ _ _ Hwrites)).
  intros Hin.
  assert (task = task0) as ->.
  { apply in_app_iff in Hin as [Hin|[Hin|[Hin|Hin]]%in_app_iff].
    - by destruct (Hnospawn _ Hfs).
    - by destruct Hin as [?|[?|[?|[]]]].
    - by injection Hin.
    - apply Hin_rest in Hin as [[Hin|[]]|Hin]; [done|].
      apply HT in Hin as [Hin|[Hin|[Hin|Hin]]]; done. }
  clear Hin.
  eexists (_ ++ _), rest, (initial_status request), completed.
  split_and!.
  - by rewrite <- (assoc_L (++)).
  - unfold initial_status. by get_set.
  - unfold completed, final_status. by get_set.
  - apply in_app_iff. right. unfold results_dir. simpl. tauto.
  - intros text ok' [Hin|Hin]%in_app_iff.
    + assert (Hw : In (EvWriteToFile text ((spool_dir_ env +:+ getUUID env) +:+ "/status") ok')
                     (List.filter is_write (log (with_directory (fresh w)))))
        by (by apply filter_In).
      by rewrite Hnw in Hw.
    + unfold results_dir in *.
      destruct Hin as [Heq|[Heq|[Heq|[]]]]; injection Heq as <- Hp; done.
  - rewrite List.filter_app, (is_fs_no_send _ Hfs). done.
  - etransitivity; [apply Hcount|]. rewrite Hprov. simpl. lia.
  - exists ok. split; [|exact Hok].
    apply Hin_task. apply in_app_iff. right. by left.
  - intros text ok' [[Hin|[]]|Hin]%Hin_rest; [done|].
    apply HT in Hin as [Hin|[Hin|[Hin|Hin]]]; [done|by injection Hin as ->| |done].
    exfalso. cbn [is_write_to] in Hin. unfold results_dir in *.
    apply orb_prop in Hin as [Hin%bool_decide_eq_true|Hin%bool_decide_eq_true];
      congruence.
  - intros Hab.
    destruct Hrest as [(_ & -> & _ & ->)|(Hab' & _)]; [|congruence].
    split.
    + by rewrite interleave_filter_length, Hprov.
    + apply interleave_In. right. apply in_app_iff. right. by left.
Qed.

(** C5. For every non-blocking request whose results directory does not
    exist and cannot be created, a request-processing error is raised when
    nothing but the attempt to create the directory has happened; the handler
    of [processRequest] catches it and turns it into one RPC error reply to
    the sender, which carries the description of the failure.  Under every
    schedule that attempt and that reply are all that is observed: no task is
    spawned and no provisional reply is sent. *)
Theorem C5_directory_failure sched module_ptr request w :
  ActionRequest.type request = NonBlocking ->
  spool_dir_ env +:+ getUUID env ∉ dirs w ->
  files w !! (spool_dir_ env +:+ getUUID env) = None ->
  createDirectory_ok env (spool_dir_ env +:+ getUUID env) = false ->
  exists m ok,
    processNonBlockingRequest env module_ptr request w
    = (Thrown (request_processing_error
                 ("failed to create directory '" +:+ (spool_dir_ env +:+ getUUID env)
                  +:+ "'")),
       emit (EvCreateDirectory (spool_dir_ env +:+ getUUID env) false) w)
    ∧ processRequest env module_ptr request w
      = (Returned tt,
         emit (EvSend m ok)
              (emit (EvCreateDirectory (spool_dir_ env +:+ getUUID env) false) w))
    ∧ send_type m = RPC_ERROR_MSG_TYPE
    ∧ send_endpoints m = [ActionRequest.sender request]
    ∧ get "description" (send_data m)
      = Some (JString ("failed to create directory '"
                       +:+ (spool_dir_ env +:+ getUUID env) +:+ "'"))
    ∧ observe env sched module_ptr request w
      = [EvCreateDirectory (spool_dir_ env +:+ getUUID env) false; EvSend m ok].
Proof.
  intros Htype Hdirs Hfiles Hcreate.
  assert (Hpresent : present w = false).
  { unfold present, results_dir. rewrite Hfiles.
    rewrite (bool_decide_eq_false_2 _ Hdirs). apply bool_decide_eq_false_2.
    by intros [? ?]. }
  eexists _, _. split_and!.
  - by apply processNonBlockingRequest_no_directory.
  - rewrite (processRequest_non_blocking _ _ _ Htype).
    rewrite (processNonBlockingRequest_no_directory _ _ _ Hpresent Hcreate).
    cbn [is_request_error what]. apply replyRPCError_run.
  - done.
  - done.
  - simpl. by get_set.
  - unfold observe. rewrite (processRequest_non_blocking _ _ _ Htype).
    rewrite (processNonBlockingRequest_no_directory _ _ (fresh w) Hpresent Hcreate).
    cbn [is_request_error what]. by rewrite replyRPCError_run.
Qed.

(** C8. For every blocking request the dispatch returns after exactly one
    attempt to reply, addressed to the sender of the request alone and
    carrying the transaction identifier: a blocking response with the result
    document when the module returns, an RPC error with the description when
    the module raises a request error.  No directory is created and no file
    is written: the file system is as it was, and the reply is all that is
    observed. *)
Theorem C8_blocking_reply sched module_ptr request w :
  ActionRequest.type request = Blocking ->
  exists m ok w',
    processRequest env module_ptr request w = (Returned tt, w')
    ∧ log w' = log w ++ [EvSend m ok]
    ∧ files w' = files w
    ∧ dirs w' = dirs w
    ∧ observe env sched module_ptr request w = [EvSend m ok]
    ∧ send_endpoints m = [ActionRequest.sender request]
    ∧ get "transaction_id" (send_data m)
      = Some (JString (ActionRequest.transactionId request))
    ∧ match Module_.executeAction module_ptr request with
      | inl outcome =>
          send_type m = BLOCKING_RESPONSE_TYPE
          ∧ get "results" (send_data m) = Some (JObject (ActionOutcome.results outcome))
      | inr msg =>
          send_type m = RPC_ERROR_MSG_TYPE
          ∧ get "description" (send_data m) = Some (JString msg)
      end.
Proof.
  intros Htype. unfold observe, processRequest, try_catch. rewrite Htype.
  rewrite !processBlockingRequest_run.
  destruct (Module_.executeAction module_ptr request) as [outcome|msg].
  - eexists _, _, _. split_and!; try done; simpl; by get_set.
  - cbn [is_request_error what]. rewrite !replyRPCError_run.
    eexists _, _, _. split_and!; try done; simpl; by get_set.
Qed.

(** *** Further properties of the replies *)

Lemma wrapDebug_loop (chunks acc : list DataContainer) :
  fold_left (fun debug debug_entry => debug ++ [debug_entry]) chunks acc = acc ++ chunks.
Proof.
  revert acc. induction chunks as [|c chunks IH]; intros acc; simpl.
  - by rewrite app_nil_r.
  - by rewrite IH, <- (assoc_L (++)).
Qed.

(** X1. [wrapDebug] returns the debug chunks of the request as they are, in
    their order, whatever the number of invalid chunks that was counted. *)
Theorem wrapDebug_chunks (parsed_chunks : ParsedChunks.t) :
  wrapDebug parsed_chunks = ParsedChunks.debug parsed_chunks.
Proof. unfold wrapDebug. apply wrapDebug_loop. Qed.

(** X2. A failure of the connector never leaves one of the four RPC replies
    (RPC error, blocking response, non-blocking response, provisional
    reply): each returns normally after exactly one attempt to send, and
    changes neither the files, nor the directories, nor the completion
    flag. *)
Theorem replies_absorb_connection_errors request description results job_id error w :
  let attempted (run : Result unit * World) :=
    exists m ok,
      run = (Returned tt, run.2)
      ∧ log run.2 = log w ++ [EvSend m ok]
      ∧ (ok = false <-> exists msg, send_error env m = Some msg)
      ∧ files run.2 = files w ∧ dirs run.2 = dirs w ∧ done run.2 = done w in
  attempted (replyRPCError env request description w)
  ∧ attempted (replyBlockingResponse env request results w)
  ∧ attempted (replyNonBlockingResponse env request results job_id w)
  ∧ attempted (replyProvisionalResponse env request job_id error w).
Proof.
  assert (Hgen : forall eps ty to d dbg,
    exists m ok,
      let run := try_catch (send env eps ty to d dbg) catch_connection_error w in
      run = (Returned tt, run.2)
      ∧ log run.2 = log w ++ [EvSend m ok]
      ∧ (ok = false <-> exists msg, send_error env m = Some msg)
      ∧ files run.2 = files w ∧ dirs run.2 = dirs w ∧ done run.2 = done w).
  { intros. rewrite try_send_run. eexists _, _. split_and!; try done.
    unfold delivered. destruct (send_error env _); split; try done; eauto.
    by intros [? ?]. }
  intros attempted. split_and!; apply Hgen.
Qed.

(** X3. The provisional reply says success exactly when it is given no error
    text, carries the error text as a member exactly when there is one, and
    always carries the job identifier, the transaction identifier and the
    debug chunks of the request. *)
Theorem provisional_reply_content request job_id error w :
  exists m ok,
    replyProvisionalResponse env request job_id error w
    = (Returned tt, emit (EvSend m ok) w)
    ∧ send_type m = PROVISIONAL_RESPONSE_TYPE
    ∧ send_endpoints m = [ActionRequest.sender request]
    ∧ get "success" (send_data m) = Some (JBool (empty error))
    ∧ get "error" (send_data m)
      = (if empty error then None else Some (JString error))
    ∧ get "job_id" (send_data m) = Some (JString job_id)
    ∧ get "transaction_id" (send_data m)
      = Some (JString (ActionRequest.transactionId request))
    ∧ send_debug m = ParsedChunks.debug (ActionRequest.parsedChunks request).
Proof.
  rewrite replyProvisionalResponse_run. eexists _, _. split; [done|].
  unfold provisional_message. cbn [send_type send_endpoints send_data send_debug].
  split_and!; try done.
  - destruct (empty error); cbn [negb]; by get_set.
  - destruct (empty error); cbn [negb]; get_set; done.
  - destruct (empty error); cbn [negb]; by get_set.
  - destruct (empty error); cbn [negb]; by get_set.
  - apply wrapDebug_chunks.
Qed.

(** X4. The debug chunks of the request travel with the blocking response
    only (and with the provisional reply): an RPC error and a non-blocking
    response carry no debug payload, whatever chunks the request has. *)
Theorem debug_payload_of_replies request description results job_id w :
  exists m_error m_blocking m_non_blocking ok1 ok2 ok3,
    replyRPCError env request description w = (Returned tt, emit (EvSend m_error ok1) w)
    ∧ replyBlockingResponse env request results w
      = (Returned tt, emit (EvSend m_blocking ok2) w)
    ∧ replyNonBlockingResponse env request results job_id w
      = (Returned tt, emit (EvSend m_non_blocking ok3) w)
    ∧ send_debug m_error = []
    ∧ send_debug m_blocking = ParsedChunks.debug (ActionRequest.parsedChunks request)
    ∧ send_debug m_non_blocking = [].
Proof.
  rewrite replyRPCError_run, replyBlockingResponse_run, replyNonBlockingResponse_run.
  eexists _, _, _, _, _, _. split_and!; try done. apply wrapDebug_chunks.
Qed.


(** *** Further properties of the results storage *)

(** X6. When the constructor of the results storage throws, it throws the
    file error of the write that failed, which is its last attempt; every
    attempt before it succeeded; no directory is touched, and the status file
    is as it was: a failed initialization never leaves a status document. *)
Theorem failed_initialization request results_dir_ w e w' :
  ResultsStorage_new env request results_dir_ w = (Thrown e, w') ->
  exists msg before text path,
    e = file_error msg
    ∧ log w' = log w ++ before ++ [EvWriteToFile text path false]
    ∧ writeToFile_error env text path = Some msg
    ∧ Forall (fun ev => exists text' path', ev = EvWriteToFile text' path' true) before
    ∧ dirs w' = dirs w
    ∧ done w' = done w
    ∧ files w' !! (results_dir_ +:+ "/status") = files w !! (results_dir_ +:+ "/status").
Proof.
  destruct (job_record_paths request results_dir_) as (Hoe & Hos & Hes).
  cbn [job_record ResultsStorage.out_path ResultsStorage.err_path
       ResultsStorage.status_path] in *.
  unfold ResultsStorage_new, ResultsStorage_initialize, mbind, M_bind, mret, M_ret,
    writeToFile.
  cbn [ResultsStorage.status_path ResultsStorage.out_path ResultsStorage.err_path
       ResultsStorage.module ResultsStorage.action ResultsStorage.action_status].
  intros H.
  repeat case_match; simplify_eq; cbn [log emit dirs done files];
    first [ eexists _, [_; _], _, _; split_and!;
            [done|by rewrite <- !(assoc_L (++))|done
            |repeat constructor; by eexists _, _|done|done
            |rewrite !lookup_insert_ne by done; done]
          | eexists _, [_], _, _; split_and!;
            [done|by rewrite <- !(assoc_L (++))|done
            |repeat constructor; by eexists _, _|done|done
            |rewrite !lookup_insert_ne by done; done]
          | eexists _, [], _, _; split_and!;
            [done|done|done|constructor|done|done|done] ].
Qed.

(** X7. When the final status document cannot be written, [write] throws the
    file error at once: nothing else is attempted and no file has changed.
    The in-memory status document is still the subject of that one attempt. *)
Theorem failed_status_write self outcome exec_error duration w msg :
  writeToFile_error env
    (toString env (set "duration" (JString duration)
                     (set "status" (JString "completed")
                        (ResultsStorage.action_status self))) +:+ LF)
    (ResultsStorage.status_path self) = Some msg ->
  exists w',
    ResultsStorage_write env self outcome exec_error duration w
    = (Thrown (file_error msg), w')
    ∧ files w' = files w ∧ dirs w' = dirs w ∧ done w' = done w
    ∧ log w'
      = log w ++ [EvWriteToFile
                    (toString env (set "duration" (JString duration)
                                     (set "status" (JString "completed")
                                        (ResultsStorage.action_status self))) +:+ LF)
                    (ResultsStorage.status_path self) false].
Proof.
  intros Hfail. run_write. rewrite Hfail. by eexists.
Qed.

(** X8. Whatever [write] does and however it ends, it throws nothing but a
    file error, touches no directory and not the flag, and writes to no file
    other than the three of the record. *)
Theorem write_frame self outcome exec_error duration w path :
  path ≠ ResultsStorage.status_path self ->
  path ≠ ResultsStorage.out_path self ->
  path ≠ ResultsStorage.err_path self ->
  let run := ResultsStorage_write env self outcome exec_error duration w in
  files run.2 !! path = files w !! path
  ∧ dirs run.2 = dirs w
  ∧ done run.2 = done w
  ∧ (forall e, run.1 = Thrown e -> exists msg, e = file_error msg).
Proof.
  intros Hs Ho He. run_write.
  repeat case_match; simplify_eq/=;
    rewrite ?lookup_insert_ne by done; split_and!; try done;
    intros e' [= <-]; by eexists.
Qed.

(** X9. Every execution of the task finalizes the job record exactly once,
    on the error path as on the success path: its log holds exactly one
    attempt to write the status file, and no directory creation or spawn. *)
Theorem task_finalizes_once module_ptr request results_dir_ job_id w :
  let rs := job_record request results_dir_ in
  exists l,
    log (nonBlockingActionTask env module_ptr request job_id rs w).2 = log w ++ l
    ∧ length (List.filter (is_write_to (ResultsStorage.status_path rs)) l) = 1%nat
    ∧ List.filter is_spawn l = []
    ∧ List.filter (fun e => match e with EvCreateDirectory _ _ => true | _ => false end) l
      = [].
Proof.
  intros rs.
  destruct (nonBlockingActionTask_log module_ptr request job_id rs w)
    as (ok & writes & fin & Hlog & Hwrites & Hfin).
  destruct (job_record_paths request results_dir_) as (Hoe & Hos & Hes).
  eexists. split; [exact Hlog|].
  assert (Hreply : forall p : Event -> bool,
             (forall e, is_send e = true -> p e = false) ->
             List.filter p (task_reply module_ptr request job_id) = []).
  { intros p Hp. apply (filter_forallb_nil p is_send); [exact Hp|].
    unfold task_reply. destruct (Module_.executeAction _ _); [|done].
    by destruct (notify_outcome request). }
  assert (Hfinp : forall p : Event -> bool, p EvDone = false -> List.filter p fin = []).
  { intros p Hp. destruct Hfin as [-> | ->]; [done|]. simpl. by rewrite Hp. }
  assert (Hw : List.filter (is_write_to (ResultsStorage.status_path rs)) writes = []).
  { eapply filter_forallb_nil; [|exact Hwrites].
    intros [] He; try done. simpl in *.
    apply orb_prop in He as [He%bool_decide_eq_true|He%bool_decide_eq_true];
      apply bool_decide_eq_false_2; subst rs; congruence. }
  split_and!.
  - rewrite List.filter_app, Hreply by (by intros []).
    cbn [List.filter is_write_to app].
    rewrite (bool_decide_eq_true_2 _ eq_refl).
    by rewrite List.filter_app, Hfinp, Hw.
  - assert (Hs : List.filter is_spawn writes = [])
      by (eapply writes_no_other; [|exact Hwrites]; by intros []).
    rewrite List.filter_app, Hreply by (by intros []).
    cbn [List.filter is_spawn app].
    by rewrite List.filter_app, Hfinp, Hs.
  - set (p := fun e => match e with EvCreateDirectory _ _ => true | _ => false end).
    assert (Hc : List.filter p writes = [])
      by (eapply writes_no_other; [|exact Hwrites]; by intros []).
    rewrite List.filter_app, Hreply by (by intros []).
    cbn [List.filter p app].
    by rewrite List.filter_app, Hfinp, Hc.
Qed.

(** *** Further properties of the task *)

(** [write] looks at the files of the world only. *)
Lemma ResultsStorage_write_files self outcome exec_error duration w1 w2 :
  files w1 = files w2 ->
  (ResultsStorage_write env self outcome exec_error duration w1).1
  = (ResultsStorage_write env self outcome exec_error duration w2).1
  ∧ files (ResultsStorage_write env self outcome exec_error duration w1).2
    = files (ResultsStorage_write env self outcome exec_error duration w2).2.
Proof.
  intros Hfiles. run_write.
  repeat case_match; simplify_eq/=; by rewrite ?Hfiles.
Qed.

Lemma ResultsStorage_write_done self outcome exec_error duration w :
  done (ResultsStorage_write env self outcome exec_error duration w).2 = done w.
Proof. run_write. repeat case_match; simplify_eq/=; done. Qed.

(** X10. A request error whose message is empty is not recorded as a
    failure: the task finalizes the job record exactly as it does for a
    module that returned the default outcome, with the same result and the
    same files, since an empty error text is what marks success. *)
Theorem empty_error_message_is_success module_ptr module_ptr' request job_id rs w :
  Module_.executeAction module_ptr request = inr EmptyString ->
  Module_.executeAction module_ptr' request = inl (default_outcome env) ->
  (nonBlockingActionTask env module_ptr request job_id rs w).1
  = (nonBlockingActionTask env module_ptr' request job_id rs w).1
  ∧ files (nonBlockingActionTask env module_ptr request job_id rs w).2
    = files (nonBlockingActionTask env module_ptr' request job_id rs w).2
  ∧ done (nonBlockingActionTask env module_ptr request job_id rs w).2
    = done (nonBlockingActionTask env module_ptr' request job_id rs w).2.
Proof.
  intros Hfail Hok. rewrite !nonBlockingActionTask_run.
  unfold task_locals. rewrite Hfail, Hok. cbn [fst snd].
  destruct (ResultsStorage_write_files rs (default_outcome env) EmptyString task_duration
              (replied module_ptr request job_id w)
              (replied module_ptr' request job_id w) eq_refl) as [Hres Hfiles].
  pose proof (ResultsStorage_write_done rs (default_outcome env) EmptyString task_duration
                (replied module_ptr request job_id w)) as Hd1.
  pose proof (ResultsStorage_write_done rs (default_outcome env) EmptyString task_duration
                (replied module_ptr' request job_id w)) as Hd2.
  destruct (ResultsStorage_write _ _ _ _ _ (replied module_ptr request job_id w))
    as [[rs1|e1] w1];
  destruct (ResultsStorage_write _ _ _ _ _ (replied module_ptr' request job_id w))
    as [[rs2|e2] w2]; simplify_eq/=; try done.
  by rewrite Hd1, Hd2.
Qed.

(** X11. The job directory after a job that failed: when the record was
    initialized, the module raised a request error with a non-empty message
    and the task returned, the stdout file is still empty, the stderr file
    holds the failure message with that text, the status document says
    completed, the flag is set, and the text was sent in an RPC error. *)
Theorem job_directory_after_failure module_ptr request results_dir_ job_id
    w0 rs w1 msg w' :
  ResultsStorage_new env request results_dir_ w0 = (Returned rs, w1) ->
  Module_.executeAction module_ptr request = inr msg ->
  msg ≠ EmptyString ->
  nonBlockingActionTask env module_ptr request job_id rs w1 = (Returned tt, w') ->
  files w' !! (results_dir_ +:+ "/stdout") = Some EmptyString
  ∧ files w' !! (results_dir_ +:+ "/stderr")
    = Some ("Failed to execute '" +:+ ActionRequest.module request +:+ " "
            +:+ ActionRequest.action request +:+ "': " +:+ msg +:+ LF)
  ∧ (exists status,
       files w' !! (results_dir_ +:+ "/status") = Some (toString env status +:+ LF)
       ∧ get "status" status = Some (JString "completed")
       ∧ get "module" status = Some (JString (ActionRequest.module request))
       ∧ get "action" status = Some (JString (ActionRequest.action request)))
  ∧ done w' = true
  ∧ (exists m ok,
       In (EvSend m ok) (log w')
       ∧ send_type m = RPC_ERROR_MSG_TYPE
       ∧ get "description" (send_data m) = Some (JString msg)).
Proof.
  intros [-> ->]%ResultsStorage_new_returned Hexec Hmsg Htask.
  destruct (job_record_paths request results_dir_) as (Hoe & Hos & Hes).
  cbn [job_record ResultsStorage.out_path ResultsStorage.err_path
       ResultsStorage.status_path] in *.
  rewrite nonBlockingActionTask_run in Htask.
  destruct (ResultsStorage_write _ _ _ _ _ _) as [[rs'|e] w2] eqn:Hwrite; [|done].
  apply ResultsStorage_write_returned in Hwrite as [_ ->].
  injection Htask as <-. cbn [files emit done log].
  unfold task_locals, finalized. rewrite Hexec. cbn [fst snd].
  destruct msg as [|c msg]; [done|]. cbn [empty].
  cbn [job_record ResultsStorage.out_path ResultsStorage.err_path
       ResultsStorage.status_path ResultsStorage.module ResultsStorage.action].
  split_and!.
  - rewrite !files_wrote_ne by done. cbn [replied files].
    rewrite !files_wrote_ne by done. apply files_wrote_eq.
  - apply files_wrote_eq.
  - eexists. split_and!.
    + rewrite files_wrote_ne by done. apply files_wrote_eq.
    + unfold final_status. by get_set.
    + unfold final_status, initial_status.
      cbn [job_record ResultsStorage.action_status]. by get_set.
    + unfold final_status, initial_status.
      cbn [job_record ResultsStorage.action_status]. by get_set.
  - done.
  - eexists (rpc_error_message request (String c msg)), _. split_and!.
    + unfold wrote. cbn [log emit replied]. unfold task_reply. rewrite Hexec.
      rewrite !in_app_iff. do 3 left. right. by left.
    + done.
    + simpl. by get_set.
Qed.

(** X12. The job directory after a job that succeeded: when the record was
    initialized, the module returned and the task returned, the stdout file
    holds the captured output (external outcome) or the result document
    (internal outcome) and a line feed; the stderr file holds the captured
    error output and a line feed when that is non-empty and is still empty
    otherwise; the status document says completed. *)
Theorem job_directory_after_success module_ptr request results_dir_ job_id
    w0 rs w1 outcome w' :
  ResultsStorage_new env request results_dir_ w0 = (Returned rs, w1) ->
  Module_.executeAction module_ptr request = inl outcome ->
  nonBlockingActionTask env module_ptr request job_id rs w1 = (Returned tt, w') ->
  files w' !! (results_dir_ +:+ "/stdout")
  = Some (match ActionOutcome.type outcome with
          | ActionOutcome.External => ActionOutcome.stdout outcome +:+ LF
          | ActionOutcome.Internal => toString env (ActionOutcome.results outcome) +:+ LF
          end)
  ∧ files w' !! (results_dir_ +:+ "/stderr")
    = Some (match ActionOutcome.type outcome with
            | ActionOutcome.External =>
                if empty (ActionOutcome.stderr outcome) then EmptyString
                else ActionOutcome.stderr outcome +:+ LF
            | ActionOutcome.Internal => EmptyString
            end)
  ∧ (exists status,
       files w' !! (results_dir_ +:+ "/status") = Some (toString env status +:+ LF)
       ∧ get "status" status = Some (JString "completed"))
  ∧ done w' = true.
Proof.
  intros [-> ->]%ResultsStorage_new_returned Hexec Htask.
  destruct (job_record_paths request results_dir_) as (Hoe & Hos & Hes).
  cbn [job_record ResultsStorage.out_path ResultsStorage.err_path
       ResultsStorage.status_path] in *.
  rewrite nonBlockingActionTask_run in Htask.
  destruct (ResultsStorage_write _ _ _ _ _ _) as [[rs'|e] w2] eqn:Hwrite; [|done].
  apply ResultsStorage_write_returned in Hwrite as [_ ->].
  injection Htask as <-. cbn [files emit done log].
  unfold task_locals, finalized. rewrite Hexec. cbn [fst snd empty].
  cbn [job_record ResultsStorage.out_path ResultsStorage.err_path
       ResultsStorage.status_path ResultsStorage.module ResultsStorage.action].
  assert (Herr0 : files (replied module_ptr request job_id
                   (wrote (toString env (initial_status request) +:+ LF)
                      (results_dir_ +:+ "/status")
                      (wrote EmptyString (results_dir_ +:+ "/stderr")
                         (wrote EmptyString (results_dir_ +:+ "/stdout") w0))))
                 !! (results_dir_ +:+ "/stderr") = Some EmptyString).
  { cbn [replied files]. rewrite files_wrote_ne by done. apply files_wrote_eq. }
  destruct (ActionOutcome.type outcome).
  - split_and!; [apply files_wrote_eq| |eexists; split|done].
    + by rewrite !files_wrote_ne.
    + rewrite files_wrote_ne by done. apply files_wrote_eq.
    + unfold final_status. by get_set.
  - destruct (empty (ActionOutcome.stderr outcome)); cbn [negb].
    + split_and!; [apply files_wrote_eq| |eexists; split|done].
      * by rewrite !files_wrote_ne.
      * rewrite files_wrote_ne by done. apply files_wrote_eq.
      * unfold final_status. by get_set.
    + split_and!; [|apply files_wrote_eq|eexists; split|done].
      * rewrite files_wrote_ne by done. apply files_wrote_eq.
      * rewrite !files_wrote_ne by done. apply files_wrote_eq.
      * unfold final_status. by get_set.
Qed.

(** *** The constructor *)

(** X13. The constructor of the request processor leaves the files alone and
    removes no directory.  It succeeds, without any action, when the spool
    path exists (as a directory or as anything else); otherwise it attempts
    to create the directory once, succeeds with the directory in place, or
    throws the fatal error that names it and leaves the world as it was. *)
Theorem constructor_spool_directory w :
  let run := RequestProcessor_new env w in
  let there := spool_dir_ env ∈ dirs w \/ is_Some (files w !! spool_dir_ env) in
  files run.2 = files w
  ∧ dirs w ⊆ dirs run.2
  ∧ (there -> run = (None, w))
  ∧ (~ there ->
     log run.2 = log w ++ [EvCreateDirectory (spool_dir_ env)
                                             (createDirectory_ok env (spool_dir_ env))]
     ∧ if createDirectory_ok env (spool_dir_ env)
       then run.1 = None ∧ spool_dir_ env ∈ dirs run.2
       else run.1 = Some (fatal_error ("failed to create the results directory '"
                                       +:+ spool_dir_ env +:+ "'"))
            ∧ dirs run.2 = dirs w).
Proof.
  intros run there. subst run there.
  unfold RequestProcessor_new, exists_, createDirectory.
  destruct (bool_decide (spool_dir_ env ∈ dirs w)) eqn:Hd;
    [|destruct (bool_decide (is_Some (files w !! spool_dir_ env))) eqn:Hf].
  - apply bool_decide_eq_true in Hd. simpl.
    split_and!; [done|done|done|]. intros []. by left.
  - apply bool_decide_eq_true in Hf. simpl.
    split_and!; [done|done|done|]. intros []. by right.
  - apply bool_decide_eq_false in Hd, Hf. cbn [orb].
    destruct (createDirectory_ok env (spool_dir_ env)); cbn [fst snd files dirs emit log].
    + split_and!; [done|set_solver|by intros [|]|]. intros _. split; [done|].
      split; [done|set_solver].
    + split_and!; [done|done|by intros [|]|]. intros _. done.
Qed.

(** *** Further properties of the dispatch *)

(** X14. No exception escapes [processRequest]: whatever the type of the
    request and whatever fails (the module, the creation of the directory,
    the initialization of the record, the start of the thread, the
    connector), it returns normally. *)
Theorem processRequest_returns module_ptr request w :
  (processRequest env module_ptr request w).1 = Returned tt.
Proof.
  destruct (ActionRequest.type request) eqn:Htype.
  - unfold processRequest, try_catch. rewrite Htype, processBlockingRequest_run.
    destruct (Module_.executeAction module_ptr request); [done|].
    cbn [is_request_error what]. by rewrite replyRPCError_run.
  - rewrite (processRequest_non_blocking _ _ _ Htype).
    destruct (present w) eqn:Hp;
      [|destruct (createDirectory_ok env results_dir) eqn:Hc].
    3:{ rewrite (processNonBlockingRequest_no_directory _ _ _ Hp Hc).
        cbn [is_request_error what]. by rewrite replyRPCError_run. }
    all: rewrite processNonBlockingRequest_run by tauto.
    all: destruct (ResultsStorage_new _ _ _ _) as [[rs|e] w1];
         [destruct (thread_error env)|]; by rewrite replyProvisionalResponse_run.
Qed.

(** X15. Under every schedule, the processing of a request attempts at most
    two sends, whatever fails, and at least one unless a file error that
    leaves the task has ended the process; and every message it sends is
    addressed to the sender of the request alone and carries the transaction
    identifier of the request. *)
Theorem replies_bounded_and_addressed sched module_ptr request w :
  (length (List.filter is_send (observe env sched module_ptr request w)) <= 2)%nat
  ∧ (aborted env module_ptr request w = false ->
     (1 <= length (List.filter is_send (observe env sched module_ptr request w)))%nat)
  ∧ Forall (fun e => match e with
                     | EvSend m _ =>
                         send_endpoints m = [ActionRequest.sender request]
                         ∧ get "transaction_id" (send_data m)
                           = Some (JString (ActionRequest.transactionId request))
                     | _ => True
                     end)
           (observe env sched module_ptr request w).
Proof.
  set (P := fun e => match e with
                     | EvSend m _ =>
                         send_endpoints m = [ActionRequest.sender request]
                         ∧ get "transaction_id" (send_data m)
                           = Some (JString (ActionRequest.transactionId request))
                     | _ => True
                     end).
  assert (Hprov : forall error,
    P (EvSend (provisional_message request (getUUID env) error)
              (delivered (provisional_message request (getUUID env) error)))).
  { intros error. unfold P, provisional_message. cbn [send_endpoints send_data].
    split; [done|]. destruct (empty error); cbn [negb]; by get_set. }
  assert (Hrpc : forall description,
    P (EvSend (rpc_error_message request description)
              (delivered (rpc_error_message request description)))).
  { intros description. unfold P, rpc_error_message. cbn [send_endpoints send_data].
    split; [done|]. by get_set. }
  assert (Hreply : Forall P (task_reply module_ptr request (getUUID env))).
  { unfold task_reply. destruct (Module_.executeAction _ _); [|by repeat constructor].
    destruct (notify_outcome request); by repeat constructor. }
  assert (Hmk : forall mk,
    mk = [] ∧ present (fresh w) = true
    \/ mk = [EvCreateDirectory results_dir true] ∧ present (fresh w) = false ->
    List.filter is_send mk = [] ∧ Forall P mk).
  { intros mk [[-> _]|[-> _]]; split; by repeat constructor. }
  pose proof (task_reply_short module_ptr request (getUUID env)) as Hshort.
  destruct (observe_cases sched module_ptr request w)
    as [(_ & outcome & _ & -> & _)|[(_ & msg & _ & -> & _)|[(_ & _ & _ & -> & _)
       |(_ & mk & [Hn HP]%Hmk & [(msg & l & text & path & -> & _ & Hl & _)
                   |[(msg & _ & -> & _)
                    |(_ & ok & writes & fin & rest & -> & Hwrites & _ & Hrest)]])]]].
  - split_and!; [simpl; lia|simpl; lia|]. by repeat constructor.
  - split_and!; [simpl; lia|simpl; lia|]. by repeat constructor.
  - split_and!; [simpl; lia|simpl; lia|]. by repeat constructor.
  - assert (Hl' : List.filter is_send (l ++ [EvWriteToFile text path false]) = [])
      by (eapply filter_forallb_nil; [|exact Hl]; by intros []).
    split_and!.
    + rewrite !List.filter_app, Hn. rewrite <- List.filter_app, Hl'. simpl. lia.
    + rewrite !List.filter_app, Hn. rewrite <- List.filter_app, Hl'. simpl. lia.
    + apply Forall_app. split; [done|].
      apply Forall_app. split; [|by repeat constructor].
      eapply forallb_Forall_impl; [|exact Hl]. by intros [].
  - split_and!.
    + rewrite !List.filter_app, Hn. simpl. lia.
    + rewrite !List.filter_app, Hn. simpl. lia.
    + rewrite !Forall_app. split_and!; by repeat constructor.
  - assert (Hfin : fin = [] \/ fin = [EvDone])
      by (destruct Hrest as [(_ & _ & -> & _)|(_ & -> & _)]; tauto).
    set (provisional := EvSend _ _) in Hrest.
    set (T := task_reply module_ptr request (getUUID env) ++ _ :: writes ++ fin) in Hrest.
    assert (Hsends : List.filter is_send T = task_reply module_ptr request (getUUID env))
      by (by apply (task_log_sends _ _ _ _ _ _ _ _ _ _ Hwrites)).
    assert (Hrest' : rest = interleave sched [provisional] T
                     \/ rest = interleave_abort sched [provisional] T)
      by (destruct Hrest as [(_ & _ & _ & ->)|(_ & _ & ->)]; tauto).
    destruct (interleavings sched [provisional] T rest Hrest')
      as (Hall & Hcount & _ & _).
    split_and!.
    + rewrite !List.filter_app, Hn. cbn [List.filter is_send app].
      etransitivity; [apply Hcount|]. rewrite Hsends. simpl. lia.
    + intros Hab. destruct Hrest as [(_ & _ & _ & ->)|(Hab' & _)]; [|congruence].
      rewrite !List.filter_app, Hn. cbn [List.filter is_send app].
      rewrite interleave_filter_length. simpl. lia.
    + rewrite !Forall_app. split_and!; [done|by repeat constructor|].
      constructor; [done|]. apply Hall; [by repeat constructor|]. unfold T.
      rewrite Forall_app. split; [done|]. constructor; [done|].
      rewrite Forall_app. split.
      * eapply forallb_Forall_impl; [|exact Hwrites]. by intros [].
      * destruct Hfin as [-> | ->]; by repeat constructor.
Qed.

(** X16. Under every schedule, the processing of a request touches the file
    system inside the results directory of the job only: the one directory it
    may create is [spool_dir_ + job_id], and every file it writes is the
    stdout, stderr or status file of that directory.  A blocking request
    touches nothing. *)
Theorem file_system_confined sched module_ptr request w :
  Forall (fun e => match e with
                   | EvCreateDirectory path _ => path = spool_dir_ env +:+ getUUID env
                   | EvWriteToFile _ path _ =>
                       path = (spool_dir_ env +:+ getUUID env) +:+ "/stdout"
                       \/ path = (spool_dir_ env +:+ getUUID env) +:+ "/stderr"
                       \/ path = (spool_dir_ env +:+ getUUID env) +:+ "/status"
                   | _ => True
                   end)
         (observe env sched module_ptr request w)
  ∧ (ActionRequest.type request = Blocking ->
     List.filter is_fs (observe env sched module_ptr request w) = []).
Proof.
  set (P := fun e => match e with
                   | EvCreateDirectory path _ => path = spool_dir_ env +:+ getUUID env
                   | EvWriteToFile _ path _ =>
                       path = (spool_dir_ env +:+ getUUID env) +:+ "/stdout"
                       \/ path = (spool_dir_ env +:+ getUUID env) +:+ "/stderr"
                       \/ path = (spool_dir_ env +:+ getUUID env) +:+ "/status"
                   | _ => True
                   end).
  assert (Hrecord : forall e,
    is_write_to (results_dir +:+ "/stdout") e
    || is_write_to (results_dir +:+ "/stderr") e
    || is_write_to (results_dir +:+ "/status") e = true -> P e).
  { intros [] He; try done. simpl in *. unfold results_dir in *.
    apply orb_prop in He as [He|He%bool_decide_eq_true]; [|tauto].
    apply orb_prop in He as [He%bool_decide_eq_true|He%bool_decide_eq_true]; tauto. }
  assert (Hreply : Forall P (task_reply module_ptr request (getUUID env))).
  { unfold task_reply. destruct (Module_.executeAction _ _); [|by repeat constructor].
    destruct (notify_outcome request); by repeat constructor. }
  assert (Hmk : forall mk,
    mk = [] ∧ present (fresh w) = true
    \/ mk = [EvCreateDirectory results_dir true] ∧ present (fresh w) = false ->
    Forall P mk).
  { intros mk [[-> _]|[-> _]]; by repeat constructor. }
  assert (Hinit : Forall P
    [EvWriteToFile EmptyString (results_dir +:+ "/stdout") true;
     EvWriteToFile EmptyString (results_dir +:+ "/stderr") true;
     EvWriteToFile (toString env (initial_status request) +:+ LF)
                   (results_dir +:+ "/status") true]).
  { repeat constructor; unfold results_dir; tauto. }
  destruct (observe_cases sched module_ptr request w)
    as [(Ht & outcome & _ & -> & _)|[(Ht & msg & _ & -> & _)|[(Ht & _ & _ & -> & _)
       |(Ht & mk & HP%Hmk & [(msg & l & text & path & -> & _ & Hl & _)
                   |[(msg & _ & -> & _)
                    |(_ & ok & writes & fin & rest & -> & Hwrites & _ & Hrest)]])]]].
  - split; [by repeat constructor|done].
  - split; [by repeat constructor|done].
  - split; [by repeat constructor|by rewrite Ht].
  - split; [|by rewrite Ht].
    apply Forall_app. split; [done|].
    apply Forall_app. split; [|by repeat constructor].
    eapply forallb_Forall_impl; [|exact Hl]. exact Hrecord.
  - split; [|by rewrite Ht].
    apply Forall_app. split; [done|].
    apply Forall_app. split; [done|by repeat constructor].
  - split; [|by rewrite Ht].
    assert (Hfin : fin = [] \/ fin = [EvDone])
      by (destruct Hrest as [(_ & _ & -> & _)|(_ & -> & _)]; tauto).
    set (provisional := EvSend _ _) in Hrest.
    set (T := task_reply module_ptr request (getUUID env) ++ _ :: writes ++ fin) in Hrest.
    assert (Hrest' : rest = interleave sched [provisional] T
                     \/ rest = interleave_abort sched [provisional] T)
      by (destruct Hrest as [(_ & _ & _ & ->)|(_ & _ & ->)]; tauto).
    destruct (interleavings sched [provisional] T rest Hrest') as (Hall & _).
    apply Forall_app. split; [done|].
    apply Forall_app. split; [done|].
    constructor; [done|]. apply Hall; [by repeat constructor|]. unfold T.
    apply Forall_app. split; [done|].
    constructor; [unfold P, results_dir; tauto|].
    apply Forall_app. split.
    + eapply forallb_Forall_impl; [|exact Hwrites].
      intros e He. apply Hrecord. by rewrite He.
    + destruct Hfin as [-> | ->]; by repeat constructor.
Qed.

(** X17. How a non-blocking request whose directory is there is answered.
    The dispatch returns, and the last event of its log is the provisional
    reply.  The reply says success, without an error member, exactly when a
    task was spawned before it.  Otherwise it says failure and no task is
    spawned: either a write of the initialization failed, and the error
    member is "failed to initialize result files: " followed by the message
    of that write, or the thread could not be started, and the error member
    is "failed to start action task: " followed by the message. *)
Theorem spawn_failure_reporting module_ptr request w :
  ActionRequest.type request = NonBlocking ->
  (spool_dir_ env +:+ getUUID env ∈ dirs w
   \/ is_Some (files w !! (spool_dir_ env +:+ getUUID env))
   \/ createDirectory_ok env (spool_dir_ env +:+ getUUID env) = true) ->
  exists pre m ok w',
    processRequest env module_ptr request (fresh w) = (Returned tt, w')
    ∧ log w' = pre ++ [EvSend m ok]
    ∧ send_type m = PROVISIONAL_RESPONSE_TYPE
    ∧ ((exists task, In (EvSpawn task) pre)
       ∧ get "success" (send_data m) = Some (JBool true)
       ∧ get "error" (send_data m) = None
       \/ List.filter is_spawn pre = []
          ∧ get "success" (send_data m) = Some (JBool false)
          ∧ ((exists msg text path,
                In (EvWriteToFile text path false) pre
                ∧ writeToFile_error env text path = Some msg
                ∧ get "error" (send_data m)
                  = Some (JString ("failed to initialize result files: " +:+ msg)))
             \/ (exists msg,
                   thread_error env = Some msg
                   ∧ get "error" (send_data m)
                     = Some (JString ("failed to start action task: " +:+ msg))))).
Proof.
  intros Htype Hdir. apply present_or_created in Hdir as Hdir'.
  assert (Hn : List.filter is_spawn (log (with_directory (fresh w))) = []).
  { unfold with_directory. by destruct (present (fresh w)). }
  destruct (dispatch_with_directory module_ptr request w Htype Hdir') as [Hret Hlog].
  cbv zeta in Hret, Hlog.
  destruct (processRequest env module_ptr request (fresh w)) as [r w'] eqn:Hrun.
  cbn [fst snd] in Hret, Hlog. subst r.
  destruct Hlog as [(msg & l & text & path & Hlog & Hfail & Hl)
                   |[(msg & Hthread & Hlog)|(Hthread & Hlog)]].
  - eexists (_ ++ _), _, _, w'. split; [done|].
    split; [rewrite Hlog; by rewrite (assoc_L (++))|]. split; [done|].
    right. split_and!.
    + assert (Hl' : List.filter is_spawn (l ++ [EvWriteToFile text path false]) = [])
        by (eapply filter_forallb_nil; [|exact Hl]; by intros []).
      by rewrite List.filter_app, Hn, Hl'.
    + simpl. by get_set.
    + left. exists msg, text, path. split_and!; [|done|simpl; by get_set].
      rewrite !in_app_iff. right. right. by left.
  - eexists (_ ++ _), _, _, w'. split; [done|].
    split; [rewrite Hlog; by rewrite (assoc_L (++))|]. split; [done|].
    right. split_and!.
    + by rewrite List.filter_app, Hn.
    + simpl. by get_set.
    + right. exists msg. split; [done|]. simpl. by get_set.
  - eexists (log (with_directory (fresh w))
             ++ [EvWriteToFile EmptyString (results_dir +:+ "/stdout") true;
                 EvWriteToFile EmptyString (results_dir +:+ "/stderr") true;
                 EvWriteToFile (toString env (initial_status request) +:+ LF)
                               (results_dir +:+ "/status") true;
                 EvSpawn (mkTask module_ptr request (getUUID env)
                            (job_record request results_dir))]), _, _, w'.
    split; [done|].
    split; [rewrite Hlog; by rewrite <- (assoc_L (++))|]. split; [done|].
    left. split_and!.
    + eexists. rewrite in_app_iff. right. do 3 right. by left.
    + simpl. by get_set.
    + simpl. by get_set.
Qed.

(** X18. One job identifier throughout, under every schedule: the provisional
    reply and the non-blocking response carry the generated identifier as
    their job_id, the task is spawned for the request itself with that
    identifier, and its record is the three files of the directory that is
    named after it. *)
Theorem job_identifier_throughout sched module_ptr request w :
  Forall (fun e => match e with
                   | EvSend m _ =>
                       send_type m = PROVISIONAL_RESPONSE_TYPE
                       \/ send_type m = NON_BLOCKING_RESPONSE_TYPE ->
                       get "job_id" (send_data m) = Some (JString (getUUID env))
                   | EvSpawn task =>
                       task_job_id task = getUUID env
                       ∧ task_request task = request
                       ∧ task_module_ptr task = module_ptr
                       ∧ ResultsStorage.out_path (task_results_storage task)
                         = (spool_dir_ env +:+ getUUID env) +:+ "/stdout"
                       ∧ ResultsStorage.err_path (task_results_storage task)
                         = (spool_dir_ env +:+ getUUID env) +:+ "/stderr"
                       ∧ ResultsStorage.status_path (task_results_storage task)
                         = (spool_dir_ env +:+ getUUID env) +:+ "/status"
                   | _ => True
                   end)
         (observe env sched module_ptr request w).
Proof.
  set (P := fun e => match e with
                   | EvSend m _ =>
                       send_type m = PROVISIONAL_RESPONSE_TYPE
                       \/ send_type m = NON_BLOCKING_RESPONSE_TYPE ->
                       get "job_id" (send_data m) = Some (JString (getUUID env))
                   | EvSpawn task =>
                       task_job_id task = getUUID env
                       ∧ task_request task = request
                       ∧ task_module_ptr task = module_ptr
                       ∧ ResultsStorage.out_path (task_results_storage task)
                         = (spool_dir_ env +:+ getUUID env) +:+ "/stdout"
                       ∧ ResultsStorage.err_path (task_results_storage task)
                         = (spool_dir_ env +:+ getUUID env) +:+ "/stderr"
                       ∧ ResultsStorage.status_path (task_results_storage task)
                         = (spool_dir_ env +:+ getUUID env) +:+ "/status"
                   | _ => True
                   end).
  assert (Hprov : forall error,
    P (EvSend (provisional_message request (getUUID env) error)
              (delivered (provisional_message request (getUUID env) error)))).
  { intros error _. unfold provisional_message. cbn [send_data].
    destruct (empty error); cbn [negb]; by get_set. }
  assert (Hother : forall m ok,
    send_type m = RPC_ERROR_MSG_TYPE \/ send_type m = BLOCKING_RESPONSE_TYPE ->
    P (EvSend m ok)).
  { intros m ok [H|H] [H'|H']; congruence. }
  assert (Hreply : Forall P (task_reply module_ptr request (getUUID env))).
  { unfold task_reply. destruct (Module_.executeAction _ _).
    - destruct (notify_outcome request); by repeat constructor.
    - repeat constructor. apply Hother. by left. }
  assert (Hfs : forall q l, (forall e, q e = true -> is_write e = true) ->
                            forallb q l = true -> Forall P l).
  { intros q l Hq. apply forallb_Forall_impl. intros e He%Hq. by destruct e. }
  assert (Hmk : forall mk,
    mk = [] ∧ present (fresh w) = true
    \/ mk = [EvCreateDirectory results_dir true] ∧ present (fresh w) = false ->
    Forall P mk).
  { intros mk [[-> _]|[-> _]]; by repeat constructor. }
  destruct (observe_cases sched module_ptr request w)
    as [(Ht & outcome & _ & -> & _)|[(Ht & msg & _ & -> & _)|[(Ht & _ & _ & -> & _)
       |(Ht & mk & HP%Hmk & [(msg & l & text & path & -> & _ & Hl & _)
                   |[(msg & _ & -> & _)
                    |(_ & ok & writes & fin & rest & -> & Hwrites & _ & Hrest)]])]]].
  - repeat constructor. apply Hother. by right.
  - repeat constructor. apply Hother. by left.
  - repeat constructor. apply Hother. by left.
  - apply Forall_app. split; [done|].
    apply Forall_app. split; [|repeat constructor; apply Hprov].
    eapply Hfs; [|exact Hl]. by intros [].
  - apply Forall_app. split; [done|].
    apply Forall_app. split; [by repeat constructor|repeat constructor; apply Hprov].
  - assert (Hfin : fin = [] \/ fin = [EvDone])
      by (destruct Hrest as [(_ & _ & -> & _)|(_ & -> & _)]; tauto).
    set (provisional := EvSend _ _) in Hrest.
    set (T := task_reply module_ptr request (getUUID env) ++ _ :: writes ++ fin) in Hrest.
    assert (Hrest' : rest = interleave sched [provisional] T
                     \/ rest = interleave_abort sched [provisional] T)
      by (destruct Hrest as [(_ & _ & _ & ->)|(_ & _ & ->)]; tauto).
    destruct (interleavings sched [provisional] T rest Hrest') as (Hall & _).
    apply Forall_app. split; [done|].
    apply Forall_app. split; [by repeat constructor|].
    constructor; [done|].
    apply Hall; [repeat constructor; apply Hprov|]. unfold T.
    apply Forall_app. split; [done|]. constructor; [done|].
    apply Forall_app. split.
    + eapply Hfs; [|exact Hwrites]. by intros [].
    + destruct Hfin as [-> | ->]; by repeat constructor.
Qed.


(** The constructor of the storage creates no directory, and once it could
    empty the stdout file, that file stays empty whatever happens next. *)
Lemma ResultsStorage_new_truncates request results_dir_ w :
  dirs (ResultsStorage_new env request results_dir_ w).2 = dirs w
  ∧ (writeToFile_error env EmptyString (results_dir_ +:+ "/stdout") = None ->
     files (ResultsStorage_new env request results_dir_ w).2 !! (results_dir_ +:+ "/stdout")
     = Some EmptyString).
Proof.
  destruct (job_record_paths request results_dir_) as (Hoe & Hos & Hes).
  cbn [job_record ResultsStorage.out_path ResultsStorage.err_path
       ResultsStorage.status_path] in *.
  unfold ResultsStorage_new, ResultsStorage_initialize, mbind, M_bind, mret, M_ret,
    writeToFile.
  cbn [ResultsStorage.status_path ResultsStorage.out_path ResultsStorage.err_path
       ResultsStorage.module ResultsStorage.action ResultsStorage.action_status].
  repeat case_match; simplify_eq/=; (split; [done|]); intros Hok; simplify_eq;
    rewrite ?lookup_insert_ne by done; by rewrite lookup_insert_eq.
Qed.


(** The first event of the dispatch is observed first. *)
Lemma observe_first sched module_ptr request w e tl :
  log (processRequest env module_ptr request (fresh w)).2 = e :: tl ->
  is_spawn e = false ->
  exists rest, observe env sched module_ptr request w = e :: rest.
Proof.
  intros Hlog He. unfold observe. cbv zeta. rewrite Hlog.
  destruct e; try done; cbn [split_spawn];
    destruct (split_spawn tl) as [[[pre task] post]|]; by eexists.
Qed.

(** X20. A results directory that is already there is used as it is: no
    directory creation is attempted under any schedule, and the directories
    are unchanged after the dispatch.  Whatever the stdout file of the record
    held, the first thing that is observed, under every schedule, is the
    attempt to empty it, which succeeds when the file can be written. *)
Theorem existing_directory_reused sched module_ptr request w :
  ActionRequest.type request = NonBlocking ->
  spool_dir_ env +:+ getUUID env ∈ dirs w ->
  List.filter (fun e => match e with EvCreateDirectory _ _ => true | _ => false end)
              (observe env sched module_ptr request w) = []
  ∧ dirs (processRequest env module_ptr request w).2 = dirs w
  ∧ (exists ok rest,
       observe env sched module_ptr request w
       = EvWriteToFile EmptyString ((spool_dir_ env +:+ getUUID env) +:+ "/stdout") ok
         :: rest
       ∧ (ok = true
          <-> writeToFile_error env EmptyString
                ((spool_dir_ env +:+ getUUID env) +:+ "/stdout") = None)).
Proof.
  intros Htype Hdir.
  set (p := fun e => match e with EvCreateDirectory _ _ => true | _ => false end).
  assert (Hp : forall w', dirs w' = dirs w -> present w' = true).
  { intros w' Hw'. unfold present, results_dir. rewrite Hw'.
    by rewrite (bool_decide_eq_true_2 _ Hdir). }
  split_and!.
  - assert (Hwrites : forall q l, (forall e, q e = true -> is_write e = true) ->
                                  forallb q l = true -> List.filter p l = []).
    { intros q l Hq. apply filter_forallb_nil. intros e He%Hq. by destruct e. }
    assert (Hreply : List.filter p (task_reply module_ptr request (getUUID env)) = []).
    { unfold task_reply. destruct (Module_.executeAction _ _); [|done].
      by destruct (notify_outcome request). }
    destruct (observe_cases sched module_ptr request w)
      as [(Ht & _)|[(Ht & _)|[(_ & Hp' & _)
         |(_ & mk & [[-> _]|[_ Hp']]
           & [(msg & l & text & path & -> & _ & Hl & _)
             |[(msg & _ & -> & _)
              |(_ & ok & writes & fin & rest & -> & Hw & _ & Hrest)]])]]];
      try congruence; try (rewrite (Hp (fresh w) eq_refl) in Hp'; congruence).
    + assert (Hl' : List.filter p (l ++ [EvWriteToFile text path false]) = [])
        by (eapply Hwrites; [|exact Hl]; by intros []).
      cbn [app]. by rewrite List.filter_app, Hl'.
    + done.
    + assert (Hfin : fin = [] \/ fin = [EvDone])
        by (destruct Hrest as [(_ & _ & -> & _)|(_ & -> & _)]; tauto).
      set (provisional := EvSend _ _) in Hrest.
      set (T := task_reply module_ptr request (getUUID env) ++ _ :: writes ++ fin)
        in Hrest.
      assert (Hrest' : rest = interleave sched [provisional] T
                       \/ rest = interleave_abort sched [provisional] T)
        by (destruct Hrest as [(_ & _ & _ & ->)|(_ & _ & ->)]; tauto).
      destruct (interleavings sched [provisional] T rest Hrest') as (_ & Hcount & _).
      assert (HT : List.filter p T = []).
      { unfold T. rewrite List.filter_app, Hreply. cbn [List.filter p app].
        assert (Hw' : List.filter p writes = [])
          by (eapply Hwrites; [|exact Hw]; by intros []).
        rewrite List.filter_app, Hw'.
        by destruct Hfin as [-> | ->]. }
      cbn [app List.filter p]. apply length_zero_iff_nil.
      specialize (Hcount p). rewrite HT in Hcount. simpl in Hcount. lia.
  - rewrite (processRequest_non_blocking _ _ _ Htype).
    rewrite processNonBlockingRequest_run by (left; by apply Hp).
    destruct (ResultsStorage_new_truncates request results_dir (with_directory w))
      as [Hdirs _].
    destruct (ResultsStorage_new _ _ _ _) as [[rs|e] w1];
      [destruct (thread_error env)|]; rewrite replyProvisionalResponse_run;
      cbn [snd dirs emit] in *; rewrite Hdirs;
      unfold with_directory; by rewrite (Hp w eq_refl).
  - destruct (ResultsStorage_new_first request results_dir (with_directory (fresh w)))
      as (ok & tl & Hlog & Hok).
    assert (Hmk : log (with_directory (fresh w)) = []).
    { unfold with_directory. by rewrite (Hp (fresh w) eq_refl). }
    rewrite Hmk in Hlog. cbn [app] in Hlog.
    assert (Hfirst : exists tl',
              log (processRequest env module_ptr request (fresh w)).2
              = EvWriteToFile EmptyString (results_dir +:+ "/stdout") ok :: tl').
    { rewrite (processRequest_non_blocking _ _ _ Htype).
      rewrite processNonBlockingRequest_run by (left; by apply (Hp (fresh w))).
      destruct (ResultsStorage_new _ _ _ _) as [[rs|e] w1];
        [destruct (thread_error env)|]; rewrite replyProvisionalResponse_run;
        cbn [snd log emit] in *; rewrite Hlog; by eexists. }
    destruct Hfirst as [tl' Hfirst].
    destruct (observe_first sched module_ptr request w _ _ Hfirst eq_refl) as [rest Hobs].
    exists ok, rest. split; [exact Hobs|exact Hok].
Qed.

End Runs.

(** ** The claims on the sample inputs *)

(** The job of the sample request: its directory and its record. *)
Example sample_job :
  ResultsStorage_new Sample.env Sample.request "/spool/job-1" Sample.w0
  = (Returned (job_record Sample.request "/spool/job-1"),
     (ResultsStorage_new Sample.env Sample.request "/spool/job-1" Sample.w0).2).
Proof. vm_compute. reflexivity. Qed.

(** The scenario of the specification: the provisional reply, then the
    non-blocking response, the final status and the result document. *)
Example sample_scenario :
  map Sample.tag (observe Sample.env [] Sample.facts Sample.request Sample.w0)
  = [Sample.TagCreateDirectory true;
     Sample.TagWrite "/spool/job-1/stdout" EmptyString true;
     Sample.TagWrite "/spool/job-1/stderr" EmptyString true;
     Sample.TagWrite "/spool/job-1/status"
       ("{module:facts,action:get,status:running,duration:0 s,input:none}" +:+ LF) true;
     Sample.TagSpawn;
     Sample.TagSend PROVISIONAL_RESPONSE_TYPE true;
     Sample.TagSend NON_BLOCKING_RESPONSE_TYPE true;
     Sample.TagWrite "/spool/job-1/status"
       ("{module:facts,action:get,status:completed,duration:2.000000 s,input:none}" +:+ LF) true;
     Sample.TagWrite "/spool/job-1/stdout" ("{os:linux}" +:+ LF) true;
     Sample.TagDone].
Proof. vm_compute. reflexivity. Qed.

(** C1 as stated fails twice.  When the results directory cannot be created,
    the non-blocking request gets an RPC error and no provisional reply.
    When the task runs as soon as it is spawned, it sets its completion flag
    (position 8) before the dispatcher attempts the provisional reply
    (position 9). *)
Lemma C1_counterexample :
  ActionRequest.type Sample.request = NonBlocking
  ∧ map Sample.tag
        (observe Sample.env_no_directory [] Sample.facts Sample.request Sample.w0)
    = [Sample.TagCreateDirectory false; Sample.TagSend RPC_ERROR_MSG_TYPE true]
  ∧ length (List.filter (is_reply PROVISIONAL_RESPONSE_TYPE)
              (observe Sample.env_no_directory [] Sample.facts Sample.request Sample.w0))
    = 0%nat
  ∧ index_of is_done
      (observe Sample.env [false; false; false; false] Sample.facts Sample.request Sample.w0)
    = Some 8%nat
  ∧ index_of (is_reply PROVISIONAL_RESPONSE_TYPE)
      (observe Sample.env [false; false; false; false] Sample.facts Sample.request Sample.w0)
    = Some 9%nat.
Proof. vm_compute. repeat split; reflexivity. Qed.

Lemma C1_provisional_reply_witness :
  ActionRequest.type Sample.request = NonBlocking
  ∧ createDirectory_ok Sample.env "/spool/job-1" = true
  ∧ aborted Sample.env Sample.facts Sample.request Sample.w0 = false
  ∧ length (List.filter (is_reply PROVISIONAL_RESPONSE_TYPE)
              (observe Sample.env [false; false; false; false]
                       Sample.facts Sample.request Sample.w0))
    = 1%nat
  ∧ (length (List.filter (is_reply PROVISIONAL_RESPONSE_TYPE)
               (observe Sample.env_disk_full [false; false; false; false]
                        Sample.facts Sample.request Sample.w0))
     <= 1)%nat.
Proof.
  assert (Hab : aborted Sample.env Sample.facts Sample.request Sample.w0 = false)
    by (vm_compute; reflexivity).
  split; [reflexivity|]. split; [reflexivity|]. split; [exact Hab|]. split.
  - destruct (C1_provisional_reply Sample.env [false; false; false; false]
                Sample.facts Sample.request Sample.w0) as (_ & _ & Hone).
    + reflexivity.
    + right. right. reflexivity.
    + exact (Hone Hab).
  - destruct (C1_provisional_reply Sample.env_disk_full [false; false; false; false]
                Sample.facts Sample.request Sample.w0) as (_ & Hmost & _).
    + reflexivity.
    + right. right. reflexivity.
    + exact Hmost.
Defined.

(** C2. The completion flag is not set on every path.  On a full disk the
    task of the sample job sends its response, rewrites the status file,
    fails to store the result document, and the file error of that write
    leaves it: the flag is false after the task and was never set.  The
    process ends there: under the schedule that lets the task run first, the
    provisional reply is never attempted. *)
Theorem C2_flag_not_set_on_file_error :
  let rs := job_record Sample.request "/spool/job-1" in
  let w1 := (ResultsStorage_new Sample.env_disk_full Sample.request "/spool/job-1"
               Sample.w0).2 in
  let run := nonBlockingActionTask Sample.env_disk_full Sample.facts Sample.request
               "job-1" rs w1 in
  ResultsStorage_new Sample.env_disk_full Sample.request "/spool/job-1" Sample.w0
  = (Returned rs, w1)
  ∧ run.1 = Thrown (file_error "No space left on device")
  ∧ done run.2 = false
  ∧ List.filter is_done (log run.2) = []
  ∧ map Sample.tag (drop (length (log w1)) (log run.2))
    = [Sample.TagSend NON_BLOCKING_RESPONSE_TYPE true;
       Sample.TagWrite "/spool/job-1/status"
         ("{module:facts,action:get,status:completed,duration:2.000000 s,input:none}"
          +:+ LF) true;
       Sample.TagWrite "/spool/job-1/stdout" ("{os:linux}" +:+ LF) false]
  ∧ aborted Sample.env_disk_full Sample.facts Sample.request Sample.w0 = true
  ∧ map Sample.tag
        (observe Sample.env_disk_full [false; false; false; false]
                 Sample.facts Sample.request Sample.w0)
    = [Sample.TagCreateDirectory true;
       Sample.TagWrite "/spool/job-1/stdout" EmptyString true;
       Sample.TagWrite "/spool/job-1/stderr" EmptyString true;
       Sample.TagWrite "/spool/job-1/status"
         ("{module:facts,action:get,status:running,duration:0 s,input:none}" +:+ LF) true;
       Sample.TagSpawn;
       Sample.TagSend NON_BLOCKING_RESPONSE_TYPE true;
       Sample.TagWrite "/spool/job-1/status"
         ("{module:facts,action:get,status:completed,duration:2.000000 s,input:none}"
          +:+ LF) true;
       Sample.TagWrite "/spool/job-1/stdout" ("{os:linux}" +:+ LF) false].
Proof. vm_compute. repeat split; reflexivity. Qed.

Lemma task_sets_flag_when_finalized_witness :
  let rs := job_record Sample.request "/spool/job-1" in
  (forall text path,
      path ∈ [ResultsStorage.status_path rs; ResultsStorage.out_path rs;
              ResultsStorage.err_path rs] ->
      writeToFile_error Sample.env_offline text path = None)
  ∧ exists l w',
      nonBlockingActionTask Sample.env_offline Sample.failing Sample.request "job-1" rs
                            Sample.w0
      = (Returned tt, w')
      ∧ done w' = true
      ∧ log w' = log Sample.w0 ++ l ++ [EvDone]
      ∧ List.filter is_done l = [].
Proof.
  intros rs. split; [reflexivity|].
  apply (task_sets_flag_when_finalized Sample.env_offline Sample.failing Sample.request
           "job-1" rs Sample.w0).
  reflexivity.
Defined.

(** C3 as stated fails on both counts.  In the dispatch path the provisional
    reply comes after the spawn (positions 4 and 5 under the schedule that lets
    the dispatcher go first); and when the task runs as soon as it is spawned,
    the status document is rewritten with status completed (position 6) before
    the provisional reply is attempted (position 9). *)
Lemma C3_counterexample :
  let first := observe Sample.env [] Sample.facts Sample.request Sample.w0 in
  let late := observe Sample.env [false; false; false; false]
                      Sample.facts Sample.request Sample.w0 in
  ActionRequest.type Sample.request = NonBlocking
  ∧ index_of is_spawn first = Some 4%nat
  ∧ index_of (is_reply PROVISIONAL_RESPONSE_TYPE) first = Some 5%nat
  ∧ index_of is_spawn late = Some 4%nat
  ∧ map Sample.tag late !! 6%nat
    = Some (Sample.TagWrite "/spool/job-1/status"
              ("{module:facts,action:get,status:completed,duration:2.000000 s,input:none}" +:+ LF)
              true)
  ∧ index_of (is_reply PROVISIONAL_RESPONSE_TYPE) late = Some 9%nat.
Proof. vm_compute. repeat split; reflexivity. Qed.

Lemma C3_reply_and_status_order_witness :
  let task := mkTask Sample.facts Sample.request "job-1"
                     (job_record Sample.request "/spool/job-1") in
  let observed := observe Sample.env [false; false; false; false]
                          Sample.facts Sample.request Sample.w0 in
  ActionRequest.type Sample.request = NonBlocking
  ∧ createDirectory_ok Sample.env "/spool/job-1" = true
  ∧ In (EvSpawn task) observed
  ∧ aborted Sample.env Sample.facts Sample.request Sample.w0 = false
  ∧ exists pre rest completed,
      observed = pre ++ EvSpawn task :: rest
      ∧ List.filter is_send pre = []
      ∧ length (List.filter (is_reply PROVISIONAL_RESPONSE_TYPE) rest) = 1%nat
      ∧ get "status" completed = Some (JString "completed")
      ∧ In (EvWriteToFile (Sample.render completed +:+ LF) "/spool/job-1/status" true) rest.
Proof.
  intros task observed.
  assert (Hspawn : In (EvSpawn task) observed).
  { vm_compute. do 4 right. left. reflexivity. }
  assert (Hab : aborted Sample.env Sample.facts Sample.request Sample.w0 = false)
    by (vm_compute; reflexivity).
  split; [reflexivity|]. split; [reflexivity|]. split; [exact Hspawn|].
  split; [exact Hab|].
  destruct (C3_reply_and_status_order Sample.env [false; false; false; false]
              Sample.facts Sample.request Sample.w0 task)
    as (pre & rest & running & completed & Hobs & _ & Hcompleted & _ & _ & Hpre & _ & _
        & _ & Hlive).
  - reflexivity.
  - right. right. reflexivity.
  - exact Hspawn.
  - destruct (Hlive Hab) as [Hone Hwritten].
    exists pre, rest, completed. split; [exact Hobs|]. split; [exact Hpre|].
    split; [exact Hone|]. split; [exact Hcompleted|exact Hwritten].
Defined.


Lemma C5_directory_failure_witness :
  ActionRequest.type Sample.request = NonBlocking
  ∧ createDirectory_ok Sample.env_no_directory "/spool/job-1" = false
  ∧ exists m ok,
      observe Sample.env_no_directory [] Sample.facts Sample.request Sample.w0
      = [EvCreateDirectory "/spool/job-1" false; EvSend m ok]
      ∧ send_type m = RPC_ERROR_MSG_TYPE.
Proof.
  split; [reflexivity|]. split; [reflexivity|].
  destruct (C5_directory_failure Sample.env_no_directory [] Sample.facts Sample.request
              Sample.w0) as (m & ok & _ & _ & Htype & _ & _ & Hobs).
  - reflexivity.
  - apply not_elem_of_empty.
  - reflexivity.
  - reflexivity.
  - exists m, ok. split; [exact Hobs|exact Htype].
Defined.

(** The task of the sample job, from initialization to completion. *)
Example C6_sample :
  map Sample.tag
      (log (nonBlockingActionTask Sample.env Sample.failing Sample.request "job-1"
              (job_record Sample.request "/spool/job-1") Sample.w0).2)
  = [Sample.TagSend RPC_ERROR_MSG_TYPE true;
     Sample.TagWrite "/spool/job-1/status"
       ("{module:facts,action:get,status:completed,duration:2.000000 s,input:none}" +:+ LF) true;
     Sample.TagWrite "/spool/job-1/stderr"
       ("Failed to execute 'facts get': no such action" +:+ LF) true;
     Sample.TagDone].
Proof. vm_compute. reflexivity. Qed.


Lemma C8_blocking_reply_witness :
  ActionRequest.type Sample.blocking_request = Blocking
  ∧ exists m ok,
      observe Sample.env [] Sample.failing Sample.blocking_request Sample.w0
      = [EvSend m ok]
      ∧ send_endpoints m = ["cth://controller"]
      ∧ send_type m = RPC_ERROR_MSG_TYPE
      ∧ get "description" (send_data m) = Some (JString "no such action").
Proof.
  split; [reflexivity|].
  destruct (C8_blocking_reply Sample.env [] Sample.failing Sample.blocking_request
              Sample.w0 eq_refl)
    as (m & ok & w' & _ & _ & _ & _ & Hobs & Hto & _ & Htype & Hdescription).
  exists m, ok. split; [exact Hobs|]. split; [exact Hto|].
  split; [exact Htype|exact Hdescription].
Defined.

Lemma C9_finalize_preserves_witness :
  let rs := job_record Sample.foo_request "/spool/job-1" in
  let w1 := (ResultsStorage_new Sample.env Sample.foo_request "/spool/job-1"
               Sample.w0).2 in
  let run := ResultsStorage_write Sample.env rs Sample.no_outcome EmptyString "2.000000 s" w1 in
  exists rs',
    run = (Returned rs', run.2)
    ∧ ResultsStorage.action_status rs'
      = [("module", JString "foo"); ("action", JString "bar");
         ("status", JString "completed"); ("duration", JString "2.000000 s");
         ("input", JString "{}")]
    ∧ get "module" (ResultsStorage.action_status rs') = Some (JString "foo")
    ∧ get "action" (ResultsStorage.action_status rs') = Some (JString "bar")
    ∧ get "input" (ResultsStorage.action_status rs') = Some (JString "{}").
Proof.
  intros rs w1 run.
  assert (Hnew : ResultsStorage_new Sample.env Sample.foo_request "/spool/job-1" Sample.w0
                 = (Returned rs, w1)) by (vm_compute; reflexivity).
  assert (Hrun : run = (Returned (ResultsStorage.mk "foo" "bar" "/spool/job-1/stdout"
                                    "/spool/job-1/stderr" "/spool/job-1/status"
                                    (final_status rs "2.000000 s")), run.2))
    by (vm_compute; reflexivity).
  destruct (C9_finalize_preserves Sample.env Sample.foo_request "/spool/job-1" Sample.w0
              rs w1 Sample.no_outcome EmptyString "2.000000 s" w1 _ run.2 Hnew Hrun)
    as (Hdoc & _ & _ & _ & Hmodule & Haction & Hinput & _).
  eexists. split; [exact Hrun|]. split; [vm_compute; reflexivity|].
  split; [exact Hmodule|]. split; [exact Haction|exact Hinput].
Defined.

Lemma C10_response_before_finalize_witness :
  let rs := job_record Sample.request "/spool/job-1" in
  let w1 := (ResultsStorage_new Sample.env Sample.request "/spool/job-1" Sample.w0).2 in
  get_bool "notify_outcome"
           (ParsedChunks.data (ActionRequest.parsedChunks Sample.request)) = true
  ∧ exists m ok w_sent,
      log w_sent = log w1 ++ [EvSend m ok]
      ∧ send_type m = NON_BLOCKING_RESPONSE_TYPE
      ∧ files w_sent !! "/spool/job-1/status"
        = Some ("{module:facts,action:get,status:running,duration:0 s,input:none}" +:+ LF).
Proof.
  intros rs w1. split; [reflexivity|].
  destruct (C10_response_before_finalize Sample.env Sample.facts Sample.request
              "/spool/job-1" "job-1" Sample.w0 rs w1 w1
              (ActionOutcome.mk ActionOutcome.Internal EmptyString EmptyString
                 [("os", JString "linux")]))
    as (m & ok & w_sent & ok' & rest & _ & Hlog & Htype & Hstatus & _).
  - vm_compute. reflexivity.
  - reflexivity.
  - reflexivity.
  - reflexivity.
  - exists m, ok, w_sent. split; [exact Hlog|]. split; [exact Htype|exact Hstatus].
Defined.

(** ** The further properties on the sample inputs *)

Lemma failed_initialization_witness :
  let run := ResultsStorage_new Sample.env_no_status Sample.request "/spool/job-1"
               Sample.w0 in
  run.1 = Thrown (file_error "Permission denied")
  ∧ files run.2 !! "/spool/job-1/status" = None
  ∧ dirs run.2 = dirs Sample.w0.
Proof.
  intros run.
  assert (Hrun : run = (Thrown (file_error "Permission denied"), run.2))
    by (vm_compute; reflexivity).
  destruct (failed_initialization Sample.env_no_status Sample.request "/spool/job-1"
              Sample.w0 _ _ Hrun)
    as (msg & before & text & path & _ & _ & _ & _ & Hdirs & _ & Hstatus).
  split; [by rewrite Hrun|]. split; [|exact Hdirs].
  etransitivity; [exact Hstatus|]. reflexivity.
Defined.

Lemma failed_status_write_witness :
  let rs := job_record Sample.request "/spool/job-1" in
  exists w',
    ResultsStorage_write Sample.env_no_status rs Sample.no_outcome EmptyString "2.000000 s"
                         Sample.w0
    = (Thrown (file_error "Permission denied"), w')
    ∧ files w' = files Sample.w0.
Proof.
  intros rs.
  destruct (failed_status_write Sample.env_no_status rs Sample.no_outcome EmptyString
              "2.000000 s" Sample.w0 "Permission denied")
    as (w' & Hrun & Hfiles & _).
  - vm_compute. reflexivity.
  - exists w'. split; [exact Hrun|exact Hfiles].
Defined.

Lemma write_frame_witness :
  let rs := job_record Sample.request "/spool/job-1" in
  let run := ResultsStorage_write Sample.env rs Sample.no_outcome "M" "2.000000 s" Sample.w0 in
  files run.2 !! "/spool/job-2/stdout" = files Sample.w0 !! "/spool/job-2/stdout"
  ∧ dirs run.2 = dirs Sample.w0.
Proof.
  intros rs run.
  destruct (write_frame Sample.env rs Sample.no_outcome "M" "2.000000 s" Sample.w0
              "/spool/job-2/stdout") as (Hfile & Hdirs & _).
  - discriminate.
  - discriminate.
  - discriminate.
  - split; [exact Hfile|exact Hdirs].
Defined.

Lemma empty_error_message_is_success_witness :
  let rs := job_record Sample.request "/spool/job-1" in
  Module_.executeAction Sample.silent Sample.request = inr EmptyString
  ∧ files (nonBlockingActionTask Sample.env Sample.silent Sample.request "job-1" rs
             Sample.w0).2
    = files (nonBlockingActionTask Sample.env Sample.idle Sample.request "job-1" rs
               Sample.w0).2.
Proof.
  intros rs. split; [reflexivity|].
  apply (empty_error_message_is_success Sample.env Sample.silent Sample.idle
           Sample.request "job-1" rs Sample.w0); reflexivity.
Defined.

Lemma job_directory_after_failure_witness :
  let rs := job_record Sample.request "/spool/job-1" in
  let w1 := (ResultsStorage_new Sample.env Sample.request "/spool/job-1" Sample.w0).2 in
  let w' := (nonBlockingActionTask Sample.env Sample.failing Sample.request "job-1"
               rs w1).2 in
  files w' !! "/spool/job-1/stdout" = Some EmptyString
  ∧ files w' !! "/spool/job-1/stderr"
    = Some ("Failed to execute 'facts get': no such action" +:+ LF)
  ∧ done w' = true.
Proof.
  intros rs w1 w'.
  destruct (job_directory_after_failure Sample.env Sample.failing Sample.request
              "/spool/job-1" "job-1" Sample.w0 rs w1 "no such action" w')
    as (Hout & Herr & _ & Hdone & _).
  - vm_compute. reflexivity.
  - reflexivity.
  - discriminate.
  - vm_compute. reflexivity.
  - split; [exact Hout|]. split; [exact Herr|exact Hdone].
Defined.

Lemma job_directory_after_success_witness :
  let rs := job_record Sample.request "/spool/job-1" in
  let w1 := (ResultsStorage_new Sample.env Sample.request "/spool/job-1" Sample.w0).2 in
  let w' := (nonBlockingActionTask Sample.env Sample.shell Sample.request "job-1"
               rs w1).2 in
  files w' !! "/spool/job-1/stdout" = Some ("X" +:+ LF)
  ∧ files w' !! "/spool/job-1/stderr" = Some EmptyString.
Proof.
  intros rs w1 w'.
  destruct (job_directory_after_success Sample.env Sample.shell Sample.request
              "/spool/job-1" "job-1" Sample.w0 rs w1
              (ActionOutcome.mk ActionOutcome.External EmptyString "X" []) w')
    as (Hout & Herr & _).
  - vm_compute. reflexivity.
  - reflexivity.
  - vm_compute. reflexivity.
  - split; [exact Hout|exact Herr].
Defined.


Lemma replies_bounded_and_addressed_witness :
  aborted Sample.env Sample.facts Sample.request Sample.w0 = false
  ∧ (1 <= length (List.filter is_send
                    (observe Sample.env [false; false; false; false]
                             Sample.facts Sample.request Sample.w0)) <= 2)%nat
  ∧ aborted Sample.env_disk_full Sample.facts Sample.request Sample.w0 = true
  ∧ (length (List.filter is_send
               (observe Sample.env_disk_full [false; false; false; false]
                        Sample.facts Sample.request Sample.w0)) <= 2)%nat.
Proof.
  assert (Hab : aborted Sample.env Sample.facts Sample.request Sample.w0 = false)
    by (vm_compute; reflexivity).
  split; [exact Hab|].
  destruct (replies_bounded_and_addressed Sample.env [false; false; false; false]
              Sample.facts Sample.request Sample.w0) as (Hmost & Hleast & _).
  split; [split; [exact (Hleast Hab)|exact Hmost]|].
  split; [vm_compute; reflexivity|].
  destruct (replies_bounded_and_addressed Sample.env_disk_full [false; false; false; false]
              Sample.facts Sample.request Sample.w0) as (Hmost' & _).
  exact Hmost'.
Defined.

Lemma spawn_failure_reporting_witness :
  ActionRequest.type Sample.request = NonBlocking
  ∧ createDirectory_ok Sample.env_no_thread "/spool/job-1" = true
  ∧ exists pre m ok w',
      processRequest Sample.env_no_thread Sample.facts Sample.request
                     (fresh Sample.w0) = (Returned tt, w')
      ∧ log w' = pre ++ [EvSend m ok]
      ∧ send_type m = PROVISIONAL_RESPONSE_TYPE.
Proof.
  split; [reflexivity|]. split; [reflexivity|].
  destruct (spawn_failure_reporting Sample.env_no_thread Sample.facts Sample.request
              Sample.w0) as (pre & m & ok & w' & Hrun & Hlog & Htype & _).
  - reflexivity.
  - right. right. reflexivity.
  - exists pre, m, ok, w'. split; [exact Hrun|]. split; [exact Hlog|exact Htype].
Defined.


Lemma existing_directory_reused_witness :
  "/spool/job-1" ∈ dirs Sample.w_with_directory
  ∧ dirs (processRequest Sample.env Sample.facts Sample.request
            Sample.w_with_directory).2
    = dirs Sample.w_with_directory
  ∧ exists ok rest,
      observe Sample.env [false; true] Sample.facts Sample.request Sample.w_with_directory
      = EvWriteToFile EmptyString "/spool/job-1/stdout" ok :: rest.
Proof.
  assert (Hdir : "/spool/job-1" ∈ dirs Sample.w_with_directory)
    by (simpl; set_solver).
  split; [exact Hdir|].
  destruct (existing_directory_reused Sample.env [false; true] Sample.facts Sample.request
              Sample.w_with_directory) as (_ & Hdirs & ok & rest & Hobs & _).
  - reflexivity.
  - exact Hdir.
  - split; [exact Hdirs|]. exists ok, rest. exact Hobs.
Defined.
